(** * Duplicate-row finder: upload / download handlers of [app.py]

    The two Flask views of [app.py] are embedded as pure functions over an
    explicit session store.  The pandas calls they make are embedded with the
    behaviour the views rely on:

    - [duplicated] is the hash-table loop behind
      [DataFrame.duplicated(keep=False)];
    - [getitem_bool] is boolean-mask row selection [df[mask]];
    - [read_csv], [to_csv], [to_html] and [render_template] are library
      entry points and stay parameters of the views (Section variables), so
      that every statement about the views holds for whatever the library
      does; a small delimited-text codec instantiates them on sample
      uploads.

    The index view only renders a template; it reads no upload and does
    not touch the session, and is left out.  The size cap on requests is
    applied before a view runs. *)

From Stdlib Require Import Strings.Ascii Strings.String Strings.Byte.
From stdpp Require Import gmap strings list fin_maps.

(** ** Python values and exceptions *)

(** An exception, by class name and [str(e)]. *)
Inductive PyExn : Type :=
  | Raise (cls : string) (msg : string).

Definition exn_str (e : PyExn) : string :=
  match e with Raise _ msg => msg end.

(** A computation that returns or raises. *)
Definition Result (A : Type) : Type := (PyExn + A)%type.

#[global] Instance result_ret : MRet Result := λ A a, inr a.
#[global] Instance result_bind : MBind Result := λ A B k m,
  match m with
  | inl e => inl e
  | inr a => k a
  end.

Definition throw {A} (e : PyExn) : Result A := inl e.

(** ** Data frames *)

Section Frame.
Context {V : Type} `{Countable V}.

(** A frame: column labels, and the rows in order, each with its index
    label.  [read_csv] labels the rows [0 .. n-1]; selecting rows keeps
    their labels. *)
Record DataFrame : Type := mkFrame {
  columns : list string;
  rows : list (nat * list V)
}.

Definition index (df : DataFrame) : list nat := (rows df).*1.
Definition values (df : DataFrame) : list (list V) := (rows df).*2.

(** [len(df)] *)
Definition len (df : DataFrame) : nat := length (rows df).

(** [df.empty]: some axis has length zero. *)
Definition empty (df : DataFrame) : bool :=
  match columns df, rows df with
  | [], _ => true
  | _, [] => true
  | _, _ => false
  end.

(** The [keep=False] loop of the hash-table [duplicated]: [table] maps a
    key to the position where it was first seen; a key seen again marks
    both that position and the current one. *)
Fixpoint duplicated_loop (vals : list (list V)) (i : nat)
    (table : gmap (list V) nat) (out : list bool) : list bool :=
  match vals with
  | [] => out
  | value :: rest =>
      match table !! value with
      | Some k =>
          duplicated_loop rest (S i) table (<[i:=true]> (<[k:=true]> out))
      | None =>
          duplicated_loop rest (S i) (<[value:=i]> table) (<[i:=false]> out)
      end
  end.

Definition htable_duplicated (vals : list (list V)) : list bool :=
  duplicated_loop vals 0 ∅ (replicate (length vals) false).

(** [df.duplicated(keep=False)]; an empty frame gives an empty mask. *)
Definition duplicated (df : DataFrame) : list bool :=
  if empty df then [] else htable_duplicated (values df).

Definition select_rows (rs : list (nat * list V)) (key : list bool)
    : list (nat * list V) :=
  (filter (λ p, p.2 = true) (zip rs key)).*1.

(** [df[key]] for a boolean key: the rows whose mask bit is set, in
    order; a key of another length raises. *)
Definition getitem_bool (df : DataFrame) (key : list bool)
    : Result DataFrame :=
  if decide (length key = length (rows df))
  then mret (mkFrame (columns df) (select_rows (rows df) key))
  else throw (Raise "ValueError" "Item wrong length").

(** Line 38: [duplicates = df[df.duplicated(keep=False)]] *)
Definition find_duplicates (df : DataFrame) : Result DataFrame :=
  getitem_bool df (duplicated df).

(** Row [j] of [vals] has an equal row at another position. *)
Definition has_twin (vals : list (list V)) (j : nat) : Prop :=
  ∃ j' v, j' ≠ j ∧ vals !! j = Some v ∧ vals !! j' = Some v.

(** How many rows of [vals] equal [v]. *)
Definition occurrences (vals : list (list V)) (v : list V) : nat :=
  length (filter (λ w, w = v) vals).

(** What the loop maintains after the rows [pre]: the table holds a
    position of every key seen, and [out] is right on [pre]. *)
Definition loop_inv (pre : list (list V)) (table : gmap (list V) nat)
    (out : list bool) : Prop :=
  (∀ v k, table !! v = Some k → pre !! k = Some v)
  ∧ (∀ v, v ∈ pre → is_Some (table !! v))
  ∧ (∀ j, j < length pre →
       ∃ b, out !! j = Some b ∧ (b = true ↔ has_twin pre j)).

(** Frames as [read_csv] builds them: rows labelled by position, and no
    rows without columns. *)
Definition range_indexed (df : DataFrame) : Prop :=
  index df = seq 0 (length (rows df)).

Definition has_columns (df : DataFrame) : Prop :=
  columns df = [] → rows df = [].

End Frame.

Arguments DataFrame V : clear implicits.

(** ** The web layer *)

(** What the views store in the session. *)
Inductive PyVal : Type :=
  | PyBool (b : bool)
  | PyStr (s : string).

#[global] Instance PyVal_eq_dec : EqDecision PyVal.
Proof. solve_decision. Defined.

(** Python truthiness. *)
Definition truthy (v : PyVal) : bool :=
  match v with
  | PyBool b => b
  | PyStr s => negb (String.eqb s "")
  end.

(** The Flask session: a dict with string keys. *)
Abbreviation Session := (gmap string PyVal).

(** A [str] is held as its UTF-8 text, so [encode('utf-8')] lists its
    bytes. *)
Definition encode_utf8 (s : string) : list byte := list_byte_of_string s.

(** An uploaded part: [bool(file)] is [bool(file.filename)]. *)
Record FileStorage : Type := mkFile {
  filename : option string;
  stream : list byte
}.

Definition file_truthy (file : FileStorage) : bool :=
  match filename file with
  | Some name => negb (String.eqb name "")
  | None => false
  end.

Record Request : Type := mkRequest {
  files : gmap string FileStorage
}.

(** Keyword arguments given to [results.html]. *)
Record ResultsContext : Type := mkContext {
  original_data : string;
  duplicate_data : option string;
  has_duplicates : bool
}.

Inductive Response : Type :=
  | Body (body : string) (status : nat)
  | Page (html : string)
  | SendFile (data : list byte) (mimetype : string) (as_attachment : bool)
      (download_name : string)
  | Unhandled (e : PyExn).

Definition status_code (r : Response) : nat :=
  match r with
  | Body _ status => status
  | Page _ => 200
  | SendFile _ _ _ _ => 200
  | Unhandled _ => 500
  end.

Definition client_error (r : Response) : Prop :=
  400 ≤ status_code r < 500.

(** Code running inside a view: it reads and writes the session and may
    raise; what was written before a raise stays written. *)
Definition Handler (A : Type) : Type := Session → Result A * Session.

#[global] Instance handler_ret : MRet Handler := λ A a s, (inr a, s).
#[global] Instance handler_bind : MBind Handler := λ A B k m s,
  match m s with
  | (inl e, s') => (inl e, s')
  | (inr a, s') => k a s'
  end.

Definition lift {A} (m : Result A) : Handler A := λ s, (m, s).

(** [session[key] = v] *)
Definition session_set (key : string) (v : PyVal) : Handler unit :=
  λ s, (inr (), <[key:=v]> s).

(** [session.pop(key, None)] *)
Definition session_pop (key : string) : Handler unit :=
  λ s, (inr (), delete key s).

(** [session.get(key)] *)
Definition session_get (key : string) : Handler (option PyVal) :=
  λ s, (inr (s !! key), s).

(** [try: body except Exception as e: handler(e)] *)
Definition try_except {A} (body : Handler A) (handler : PyExn → Handler A)
    : Handler A :=
  λ s, match body s with
       | (inl e, s') => handler e s'
       | (inr a, s') => (inr a, s')
       end.

(** A view as Flask runs it: an exception that escapes is a 500. *)
Definition run_view (h : Handler Response) (s : Session) : Response * Session :=
  match h s with
  | (inl e, s') => (Unhandled e, s')
  | (inr r, s') => (r, s')
  end.

Section App.
Context {V : Type} `{Countable V}.

(** The library entry points the views call. *)
Variable read_csv : list byte → Result (DataFrame V).
(** [to_csv(index=False)] *)
Variable to_csv : DataFrame V → string.
(** [to_html(classes='table table-striped', index=False)] *)
Variable to_html : DataFrame V → string.
Variable render_template : string → ResultsContext → Result string.

(** Lines 34-54, the body of the [try]. *)
Definition upload_try (file : FileStorage) : Handler Response :=
  df ← lift (read_csv (stream file));
  duplicates ← lift (find_duplicates df);
  (if negb (empty duplicates)
   then
     session_set "duplicates_csv" (PyStr (to_csv duplicates));;
     session_set "has_duplicates" (PyBool true)
   else
     session_set "has_duplicates" (PyBool false);;
     session_pop "duplicates_csv");;
  page ← lift (render_template "results.html"
    {| original_data := to_html df;
       duplicate_data :=
         if negb (empty duplicates) then Some (to_html duplicates) else None;
       has_duplicates := negb (empty duplicates) |});
  mret (Page page).

(** [POST /upload] *)
Definition upload_handler (request : Request) : Handler Response :=
  match files request !! "file" with
  | None => mret (Body "No file part" 400)
  | Some file =>
      if decide (filename file = Some "")
      then mret (Body "No selected file" 400)
      else if file_truthy file
      then try_except (upload_try file)
             (λ e, mret (Body ("Error processing file: " +:+ exn_str e) 500))
      else mret (Body "Something went wrong" 500)
  end.

Definition upload_file (request : Request) : Session → Response * Session :=
  run_view (upload_handler request).

(** [GET /download_duplicates] *)
Definition download_handler : Handler Response :=
  flag ← session_get "has_duplicates";
  if negb (truthy (default (PyBool false) flag))
  then mret (Body "No duplicates found in the last uploaded file." 400)
  else
    duplicates_csv ← session_get "duplicates_csv";
    match duplicates_csv with
    | None =>
        mret (Body "Duplicate data not available. Please upload a file first." 400)
    | Some v =>
        if negb (truthy v)
        then mret (Body "Duplicate data not available. Please upload a file first." 400)
        else
          match v with
          | PyStr csv =>
              mret (SendFile (encode_utf8 csv) "text/csv" true "duplicates.csv")
          | PyBool _ =>
              lift (throw (Raise "AttributeError"
                             "'bool' object has no attribute 'encode'"))
          end
    end.

Definition download_duplicates : Session → Response * Session :=
  run_view download_handler.

(** Requests a client can send. *)
Inductive Req : Type :=
  | Upload (request : Request)
  | Download.

Definition serve (r : Req) (s : Session) : Response * Session :=
  match r with
  | Upload request => upload_file request s
  | Download => download_duplicates s
  end.

(** The session after a sequence of requests, oldest first. *)
Fixpoint run (rs : list Req) (s : Session) : Session :=
  match rs with
  | [] => s
  | r :: rs' => run rs' (serve r s).2
  end.

(** Sessions a client can hold: a new session is empty and only the
    views write to it. *)
Definition reachable (s : Session) : Prop := ∃ rs, s = run rs ∅.

(** The upload reads a named file, parses it and selects [duplicates]. *)
Definition upload_finds (request : Request) (df duplicates : DataFrame V)
    : Prop :=
  ∃ file, files request !! "file" = Some file
    ∧ file_truthy file = true
    ∧ read_csv (stream file) = inr df
    ∧ find_duplicates df = inr duplicates.

(** What lines 42-48 leave in the session for a given [duplicates]. *)
Definition session_after (duplicates : DataFrame V) (s : Session) : Session :=
  if negb (empty duplicates)
  then <["has_duplicates":=PyBool true]>
         (<["duplicates_csv":=PyStr (to_csv duplicates)]> s)
  else delete "duplicates_csv" (<["has_duplicates":=PyBool false]> s).

(** What lines 51-54 hand to the template. *)
Definition results_context (df duplicates : DataFrame V) : ResultsContext :=
  {| original_data := to_html df;
     duplicate_data :=
       if negb (empty duplicates) then Some (to_html duplicates) else None;
     has_duplicates := negb (empty duplicates) |}.

End App.

(** The export buffer of a session, and its flag as the download view
    reads it. *)
Definition export_buffer (s : Session) : option PyVal := s !! "duplicates_csv".

Definition flag_set (s : Session) : bool :=
  truthy (default (PyBool false) (s !! "has_duplicates")).

Definition csv_stored (s : Session) : Prop :=
  ∃ csv, s !! "duplicates_csv" = Some (PyStr csv) ∧ csv ≠ "".

(** A session in one of the two shapes an upload leaves: flag set with a
    non-empty text stored, or flag unset with nothing stored. *)
Definition session_ok (s : Session) : Prop :=
  (s !! "has_duplicates" = Some (PyBool true) ∧ csv_stored s)
  ∨ (flag_set s = false ∧ s !! "duplicates_csv" = None).

(** The first failure branch of the download view, lines 68-69. *)
Definition no_duplicates : Response :=
  Body "No duplicates found in the last uploaded file." 400.

(** The second failure branch of the download view, lines 72-73. *)
Definition data_missing : Response :=
  Body "Duplicate data not available. Please upload a file first." 400.

(** ** The index view and the routes *)

Section Index.
(** [render_template('index.html')], which takes no keyword argument. *)
Variable render_index : Result string.

(** [GET /]: no [try] around the rendering, no use of the session. *)
Definition index_handler : Handler Response :=
  page ← lift render_index;
  mret (Page page).

Definition index_view : Session → Response * Session :=
  run_view index_handler.

End Index.

(** The three routes of the application. *)
Inductive Route : Type :=
  | GetIndex
  | PostUpload (request : Request)
  | GetDownload.

(** The routes that are uploads or downloads, as requests of [serve]. *)
Definition route_req (rt : Route) : option Req :=
  match rt with
  | GetIndex => None
  | PostUpload request => Some (Upload request)
  | GetDownload => Some Download
  end.

Section Routes.
Context {V : Type} `{Countable V}.
Variable read_csv : list byte → Result (DataFrame V).
Variable to_csv : DataFrame V → string.
Variable to_html : DataFrame V → string.
Variable render_template : string → ResultsContext → Result string.
Variable render_index : Result string.

Definition dispatch (rt : Route) (s : Session) : Response * Session :=
  match rt with
  | GetIndex => index_view render_index s
  | PostUpload request =>
      upload_file read_csv to_csv to_html render_template request s
  | GetDownload => download_duplicates s
  end.

(** The session after a sequence of routed requests, oldest first. *)
Fixpoint run_routes (rts : list Route) (s : Session) : Session :=
  match rts with
  | [] => s
  | rt :: rts' => run_routes rts' (dispatch rt s).2
  end.

End Routes.

(** A template directory that holds nothing: every rendering raises. *)
Definition no_templates (name : string) (ctx : ResultsContext)
    : Result string :=
  throw (Raise "TemplateNotFound" name).

(** ** A concrete cell type *)

(** Cells as type inference leaves them: text, integers, booleans and the
    missing value.  Floating-point cells are not listed; the statements
    made for any cell type cover them. *)
Inductive Cell : Type :=
  | CStr (s : string)
  | CInt (n : Z)
  | CBool (b : bool)
  | CNaN.

#[global] Instance Cell_eq_dec : EqDecision Cell.
Proof. solve_decision. Defined.

Definition Cell_to_sum (c : Cell) : string + Z + bool + unit :=
  match c with
  | CStr s => inl (inl (inl s))
  | CInt n => inl (inl (inr n))
  | CBool b => inl (inr b)
  | CNaN => inr ()
  end.

Definition Cell_of_sum (x : string + Z + bool + unit) : Cell :=
  match x with
  | inl (inl (inl s)) => CStr s
  | inl (inl (inr n)) => CInt n
  | inl (inr b) => CBool b
  | inr _ => CNaN
  end.

#[global] Instance Cell_countable : Countable Cell.
Proof.
  refine (inj_countable' Cell_to_sum Cell_of_sum _).
  intros []; reflexivity.
Defined.

(** ** A delimited-text codec *)

Module Csv.

Definition dquote : ascii := "034"%char.
Definition comma : ascii := ","%char.
Definition LF : ascii := "010"%char.
Definition CR : ascii := "013"%char.

Definition special (c : ascii) : bool :=
  Ascii.eqb c comma || Ascii.eqb c dquote || Ascii.eqb c LF || Ascii.eqb c CR.

Fixpoint needs_quote (s : string) : bool :=
  match s with
  | EmptyString => false
  | String c s' => special c || needs_quote s'
  end.

(** Inside quotes a quote character is written twice. *)
Fixpoint escape (s : string) : string :=
  match s with
  | EmptyString => EmptyString
  | String c s' =>
      if Ascii.eqb c dquote
      then String dquote (String dquote (escape s'))
      else String c (escape s')
  end.

Definition write_field (s : string) : string :=
  if needs_quote s
  then String dquote (escape s +:+ String dquote EmptyString)
  else s.

Fixpoint join_fields (fs : list string) : string :=
  match fs with
  | [] => EmptyString
  | [f] => write_field f
  | f :: fs' => write_field f +:+ String comma (join_fields fs')
  end.

(** One line; a lone empty field is quoted, so that the line is not
    blank. *)
Definition write_row (fs : list string) : string :=
  match fs with
  | [EmptyString] => String dquote (String dquote (String LF EmptyString))
  | _ => join_fields fs +:+ String LF EmptyString
  end.

Definition concat_lines (ls : list string) : string :=
  foldr String.append EmptyString ls.

(** Modelled from the spec: the Export Serializer (section 4.3), which
    the source delegates to the library's [to_csv]: a header row of
    column names followed by one line per row, in row order; the index
    is not written. *)
Definition to_csv (df : DataFrame string) : string :=
  write_row (columns df) +:+ concat_lines (write_row <$> values df).

Inductive PState : Type :=
  | StartField
  | InField
  | InQuoted
  | QuoteInQuoted.

(** The tokenizer: [cur] is the field being read, [row] the fields of
    the current line, [acc] the finished lines.  Blank lines are
    skipped. *)
Fixpoint tokenize (st : PState) (cur : string) (row : list string)
    (acc : list (list string)) (input : string)
    : Result (list (list string)) :=
  match input with
  | EmptyString =>
      match st with
      | StartField =>
          mret (match row with [] => acc | _ => acc ++ [row ++ [EmptyString]] end)
      | InField | QuoteInQuoted => mret (acc ++ [row ++ [cur]])
      | InQuoted =>
          throw (Raise "ParserError"
                   "Error tokenizing data. C error: EOF inside string")
      end
  | String c rest =>
      match st with
      | StartField =>
          if Ascii.eqb c dquote then tokenize InQuoted EmptyString row acc rest
          else if Ascii.eqb c comma
          then tokenize StartField EmptyString (row ++ [EmptyString]) acc rest
          else if Ascii.eqb c LF
          then match row with
               | [] => tokenize StartField EmptyString [] acc rest
               | _ => tokenize StartField EmptyString []
                        (acc ++ [row ++ [EmptyString]]) rest
               end
          else tokenize InField (String c EmptyString) row acc rest
      | InField =>
          if Ascii.eqb c comma
          then tokenize StartField EmptyString (row ++ [cur]) acc rest
          else if Ascii.eqb c LF
          then tokenize StartField EmptyString [] (acc ++ [row ++ [cur]]) rest
          else tokenize InField (cur +:+ String c EmptyString) row acc rest
      | InQuoted =>
          if Ascii.eqb c dquote then tokenize QuoteInQuoted cur row acc rest
          else tokenize InQuoted (cur +:+ String c EmptyString) row acc rest
      | QuoteInQuoted =>
          if Ascii.eqb c dquote
          then tokenize InQuoted (cur +:+ String dquote EmptyString) row acc rest
          else if Ascii.eqb c comma
          then tokenize StartField EmptyString (row ++ [cur]) acc rest
          else if Ascii.eqb c LF
          then tokenize StartField EmptyString [] (acc ++ [row ++ [cur]]) rest
          else tokenize InField (cur +:+ String c EmptyString) row acc rest
      end
  end.

(** Modelled from the spec: the Table Loader (section 4.1), which the
    source delegates to the library's [read_csv]: the first line is the
    header, column and row order are kept, cells are compared as raw
    text, and content without a header or with a line of another width
    is a parse error. *)
Definition read_csv (content : list byte) : Result (DataFrame string) :=
  lines ← tokenize StartField EmptyString [] [] (string_of_list_byte content);
  match lines with
  | [] => throw (Raise "EmptyDataError" "No columns to parse from file")
  | header :: body =>
      if forallb (λ r, Nat.eqb (length r) (length header)) body
      then mret (mkFrame header (zip (seq 0 (length body)) body))
      else throw (Raise "ParserError"
                    "Error tokenizing data. C error: wrong number of fields")
  end.

Definition html_row (tag : string) (cells : list string) : string :=
  "<tr>" +:+ concat_lines ((λ c, "<" +:+ tag +:+ ">" +:+ c +:+ "</" +:+ tag +:+ ">") <$> cells)
    +:+ "</tr>".

(** A plain table rendering, header first. *)
Definition to_html (df : DataFrame string) : string :=
  "<table>" +:+ html_row "th" (columns df)
    +:+ concat_lines (html_row "td" <$> values df) +:+ "</table>".

(** A template directory holding [results.html] only. *)
Definition render_template (name : string) (ctx : ResultsContext)
    : Result string :=
  if String.eqb name "results.html"
  then mret (original_data ctx +:+ default "No duplicates found." (duplicate_data ctx))
  else throw (Raise "TemplateNotFound" name).

(** Rows all as wide as the header. *)
Definition rectangular (df : DataFrame string) : Prop :=
  Forall (λ r, length r = length (columns df)) (values df).

End Csv.

(** ** Sample inputs *)

(** Columns (X, Y) and rows ("a",1), ("b",2), ("a",1), ("c",3). *)
Definition example_table : DataFrame Cell :=
  mkFrame ["X"; "Y"]
    [(0, [CStr "a"; CInt 1]); (1, [CStr "b"; CInt 2]);
     (2, [CStr "a"; CInt 1]); (3, [CStr "c"; CInt 3])].

Definition example_duplicates : DataFrame Cell :=
  mkFrame ["X"; "Y"] [(0, [CStr "a"; CInt 1]); (2, [CStr "a"; CInt 1])].

(** The text made of the given lines. *)
Definition text (lines : list string) : string :=
  Csv.concat_lines ((λ l, l +:+ String Csv.LF EmptyString) <$> lines).

(** A request uploading [content] under the form field [file]. *)
Definition upload_of (name content : string) : Request :=
  mkRequest {["file" := mkFile (Some name) (list_byte_of_string content)]}.

Definition pair_upload : Request := upload_of "pair.csv" (text ["X"; "a"; "a"]).
Definition distinct_upload : Request :=
  upload_of "distinct.csv" (text ["X"; "a"; "b"]).
Definition header_upload : Request := upload_of "header.csv" (text ["X,Y"]).
Definition ragged_upload : Request :=
  upload_of "ragged.csv" (text ["X,Y"; "1,2"; "1,2,3"]).

Definition pair_table : DataFrame string :=
  mkFrame ["X"] [(0, ["a"]); (1, ["a"])].
Definition distinct_table : DataFrame string :=
  mkFrame ["X"] [(0, ["a"]); (1, ["b"])].
Definition header_table : DataFrame string := mkFrame ["X"; "Y"] [].

(** The sample table with its first two rows exchanged. *)
Definition example_swapped : DataFrame Cell :=
  mkFrame ["X"; "Y"]
    [(0, [CStr "b"; CInt 2]); (1, [CStr "a"; CInt 1]);
     (2, [CStr "a"; CInt 1]); (3, [CStr "c"; CInt 3])].

(** The sample table under other labels and column names. *)
Definition example_relabelled : DataFrame Cell :=
  mkFrame ["P"; "Q"]
    [(7, [CStr "a"; CInt 1]); (5, [CStr "b"; CInt 2]);
     (3, [CStr "a"; CInt 1]); (1, [CStr "c"; CInt 3])].

(** A session holding a key of some other part of an application. *)
Definition noted_session : Session := {["user" := PyStr "ann"]}.

(** * Properties *)

(** ** The duplicate mask *)

Section FrameFacts.
Context {V : Type} `{Countable V}.
Implicit Types (vals pre rest : list (list V)) (out key : list bool).
Implicit Types (df T D : DataFrame V).

Lemma has_twin_lt vals j : has_twin vals j → j < length vals.
Proof. intros (j' & v & _ & Hj & _). by eapply lookup_lt_Some. Qed.

Lemma has_twin_app_l pre rest j : has_twin pre j → has_twin (pre ++ rest) j.
Proof.
  intros (j' & v & Hne & Hj & Hj').
  exists j', v. split_and!; [done | |]; by apply lookup_app_l_Some.
Qed.

(** A twin found after appending [v] is an old twin, or is the new row. *)
Lemma has_twin_snoc_inv pre v j :
  j < length pre → has_twin (pre ++ [v]) j →
  has_twin pre j ∨ pre !! j = Some v.
Proof.
  intros Hlt (j' & w & Hne & Hj & Hj').
  rewrite lookup_app_l in Hj by done.
  destruct (decide (j' < length pre)) as [Hlt'|Hge].
  - rewrite lookup_app_l in Hj' by done. left. by exists j', w.
  - right. rewrite lookup_app_r in Hj' by lia.
    destruct (j' - length pre) as [|n] eqn:E; simpl in Hj'; [|done].
    by simplify_eq.
Qed.

Lemma duplicated_loop_length rest : ∀ i table out,
  length (duplicated_loop rest i table out) = length out.
Proof.
  induction rest as [|v rest IH]; intros i table out; simpl; [done|].
  destruct (table !! v); rewrite IH, ?length_insert; done.
Qed.

Lemma loop_inv_seen pre table out v k rest :
  loop_inv pre table out →
  table !! v = Some k →
  length pre + S (length rest) ≤ length out →
  loop_inv (pre ++ [v]) table (<[length pre:=true]> (<[k:=true]> out)).
Proof.
  intros (Hsound & Hcompl & Hout) Hk Hlen.
  pose proof (Hsound _ _ Hk) as Hpk.
  pose proof (lookup_lt_Some _ _ _ Hpk) as Hklt.
  split_and!.
  - intros w k' Hw. apply lookup_app_l_Some. eauto.
  - intros w [Hw| ->%list_elem_of_singleton]%elem_of_app; eauto.
  - intros j Hj. rewrite length_app in Hj. simpl in Hj.
    destruct (decide (j = length pre)) as [->|Hne].
    { exists true. split.
      - apply list_lookup_insert_eq. rewrite length_insert. lia.
      - split; [intros _|done]. exists k, v. split_and!; [lia | |].
        + rewrite lookup_app_r by lia. by rewrite Nat.sub_diag.
        + by apply lookup_app_l_Some. }
    rewrite list_lookup_insert_ne by done.
    destruct (decide (j = k)) as [->|Hnk].
    { exists true. split.
      - apply list_lookup_insert_eq. lia.
      - split; [intros _|done]. exists (length pre), v. split_and!; [lia | |].
        + by apply lookup_app_l_Some.
        + rewrite lookup_app_r by lia. by rewrite Nat.sub_diag. }
    rewrite list_lookup_insert_ne by done.
    destruct (Hout j) as (b & Hb & Hiff); [lia|].
    exists b. split; [done|]. rewrite Hiff. split.
    + apply has_twin_app_l.
    + intros [Ht|Hjv]%has_twin_snoc_inv; [done| |lia].
      exists k, v. by split_and!.
Qed.

Lemma loop_inv_fresh pre table out v rest :
  loop_inv pre table out →
  table !! v = None →
  length pre + S (length rest) ≤ length out →
  loop_inv (pre ++ [v]) (<[v:=length pre]> table) (<[length pre:=false]> out).
Proof.
  intros (Hsound & Hcompl & Hout) Hnone Hlen.
  assert (v ∉ pre) as Hnotin.
  { intros [x Hx]%Hcompl. congruence. }
  split_and!.
  - intros w k'. rewrite lookup_insert. case_decide as Hw.
    + intros [= <-]. subst w. rewrite lookup_app_r by lia.
      by rewrite Nat.sub_diag.
    + intros Hk'. apply lookup_app_l_Some. eauto.
  - intros w Hw. rewrite lookup_insert. case_decide; [eauto|].
    apply elem_of_app in Hw as [Hw| ->%list_elem_of_singleton]; [eauto|done].
  - intros j Hj. rewrite length_app in Hj. simpl in Hj.
    destruct (decide (j = length pre)) as [->|Hne].
    { exists false. split.
      - apply list_lookup_insert_eq. lia.
      - split; [done|]. intros (j' & w & Hne & Hj1 & Hj2).
        rewrite lookup_app_r in Hj1 by lia.
        rewrite Nat.sub_diag in Hj1. simpl in Hj1. simplify_eq.
        pose proof (lookup_lt_Some _ _ _ Hj2) as Hlt.
        rewrite length_app in Hlt. simpl in Hlt.
        rewrite lookup_app_l in Hj2 by lia.
        destruct Hnotin. by eapply list_elem_of_lookup_2. }
    rewrite list_lookup_insert_ne by done.
    destruct (Hout j) as (b & Hb & Hiff); [lia|].
    exists b. split; [done|]. rewrite Hiff. split.
    + apply has_twin_app_l.
    + intros [Ht|Hjv]%has_twin_snoc_inv; [done| |lia].
      destruct Hnotin. by eapply list_elem_of_lookup_2.
Qed.

(** The loop marks exactly the positions that have a twin. *)
Lemma duplicated_loop_spec rest : ∀ pre table out,
  loop_inv pre table out →
  length pre + length rest ≤ length out →
  ∀ j, j < length (pre ++ rest) →
    ∃ b, duplicated_loop rest (length pre) table out !! j = Some b
         ∧ (b = true ↔ has_twin (pre ++ rest) j).
Proof.
  induction rest as [|v rest IH]; intros pre table out Hinv Hlen j Hj.
  - simpl. rewrite app_nil_r in *. destruct Hinv as (_ & _ & Hout). eauto.
  - simpl. replace (pre ++ v :: rest) with ((pre ++ [v]) ++ rest) in *
      by (by rewrite <- app_assoc).
    replace (S (length pre)) with (length (pre ++ [v]))
      by (rewrite length_app; simpl; lia).
    simpl in Hlen.
    destruct (table !! v) as [k|] eqn:Hk.
    + apply IH; [by eapply loop_inv_seen| |done].
      rewrite !length_insert, length_app. simpl. lia.
    + apply IH; [by eapply loop_inv_fresh| |done].
      rewrite !length_insert, length_app. simpl. lia.
Qed.

Lemma htable_duplicated_length vals :
  length (htable_duplicated vals) = length vals.
Proof.
  unfold htable_duplicated.
  by rewrite duplicated_loop_length, length_replicate.
Qed.

Lemma htable_duplicated_spec vals j :
  htable_duplicated vals !! j = Some true ↔ has_twin vals j.
Proof.
  assert (loop_inv (@nil (list V)) ∅ (replicate (length vals) false)) as Hinv.
  { split_and!.
    - intros v k. by rewrite lookup_empty.
    - intros v Hv. by apply elem_of_nil in Hv.
    - simpl. lia. }
  split.
  - intros Hj.
    pose proof (lookup_lt_Some _ _ _ Hj) as Hlt.
    rewrite htable_duplicated_length in Hlt.
    destruct (duplicated_loop_spec vals [] _ _ Hinv) with (j := j)
      as (b & Hb & Hiff); [simpl; by rewrite length_replicate|done|].
    unfold htable_duplicated in Hj. simpl in Hb. rewrite Hj in Hb.
    apply Hiff. congruence.
  - intros Ht. pose proof (has_twin_lt _ _ Ht) as Hlt.
    destruct (duplicated_loop_spec vals [] _ _ Hinv) with (j := j)
      as (b & Hb & Hiff); [simpl; by rewrite length_replicate|done|].
    unfold htable_duplicated. simpl in Hb. rewrite Hb.
    f_equal. by apply Hiff.
Qed.

Lemma empty_false df : empty df = false ↔ columns df ≠ [] ∧ rows df ≠ [].
Proof.
  unfold empty. destruct (columns df), (rows df); split; try done.
  all: by intros [? ?].
Qed.

Lemma empty_no_rows df : rows df = [] → empty df = true.
Proof. unfold empty. intros ->. by destruct (columns df). Qed.

Lemma duplicated_length df :
  has_columns df → length (duplicated df) = length (rows df).
Proof.
  intros Hcols. unfold duplicated.
  destruct (empty df) eqn:E.
  - unfold empty in E. unfold has_columns in Hcols.
    destruct (columns df), (rows df); simpl; try done.
    by specialize (Hcols eq_refl).
  - unfold values. by rewrite htable_duplicated_length, length_fmap.
Qed.

Lemma duplicated_spec df j :
  has_columns df →
  duplicated df !! j = Some true ↔ has_twin (values df) j.
Proof.
  intros Hcols. unfold duplicated.
  destruct (empty df) eqn:E; [|apply htable_duplicated_spec].
  split; [done|]. intros Hlt%has_twin_lt.
  unfold values in Hlt. rewrite length_fmap in Hlt.
  unfold empty in E. unfold has_columns in Hcols.
  destruct (columns df), (rows df); simpl in *; try done; try lia.
  by specialize (Hcols eq_refl).
Qed.

(** On a frame the loader can build, line 38 returns. *)
Lemma find_duplicates_total df :
  has_columns df →
  find_duplicates df
  = inr (mkFrame (columns df) (select_rows (rows df) (duplicated df))).
Proof.
  intros Hcols. unfold find_duplicates, getitem_bool.
  rewrite decide_True; [done|]. by apply duplicated_length.
Qed.

Lemma elem_of_select_rows (rs : list (nat * list V)) key x :
  x ∈ select_rows rs key ↔ ∃ p, rs !! p = Some x ∧ key !! p = Some true.
Proof.
  unfold select_rows. rewrite list_elem_of_fmap. split.
  - intros ([y b] & -> & [Hb Hin]%list_elem_of_filter). simpl in *. subst b.
    apply list_elem_of_lookup in Hin as [p Hp].
    apply lookup_zip_with_Some in Hp as (y' & b' & [= -> ->] & Hy & Hb).
    eauto.
  - intros (p & Hx & Hb). exists (x, true). split; [done|].
    apply list_elem_of_filter. split; [done|].
    apply list_elem_of_lookup. exists p.
    apply lookup_zip_with_Some. eauto.
Qed.

Lemma select_rows_sublist (rs : list (nat * list V)) : ∀ key,
  select_rows rs key `sublist_of` rs.
Proof.
  unfold select_rows.
  induction rs as [|x rs IH]; intros [|b key]; simpl;
    try apply sublist_nil_l.
  rewrite filter_cons. simpl. destruct (decide (b = true)); simpl.
  - by apply sublist_skip.
  - by apply sublist_cons.
Qed.

(** With a mask that decides [P] row by row, selection is [filter P]. *)
Lemma select_rows_filter (P : nat * list V → Prop) `{∀ x, Decision (P x)}
    (rs : list (nat * list V)) : ∀ key,
  length key = length rs →
  (∀ p x, rs !! p = Some x → key !! p = Some true ↔ P x) →
  select_rows rs key = filter P rs.
Proof.
  unfold select_rows.
  induction rs as [|x rs IH]; intros [|b key] Hlen Hkey; simpl in *;
    try done.
  rewrite !filter_cons. simpl.
  pose proof (Hkey 0 x eq_refl) as Hhead. simpl in Hhead.
  assert ((filter (λ p, p.2 = true) (zip rs key)).*1 = filter P rs) as Htail.
  { apply IH; [lia|]. intros p y Hy. apply (Hkey (S p) y Hy). }
  destruct (decide (b = true)) as [->|Hb], (decide (P x)) as [HP|HP];
    rewrite ?fmap_cons, ?Htail; try done.
  - exfalso. apply HP. by apply Hhead.
  - exfalso. apply Hb. apply Hhead in HP. congruence.
Qed.

Lemma range_indexed_lookup df p i r :
  range_indexed df → rows df !! p = Some (i, r) → i = p.
Proof.
  unfold range_indexed, index. intros Hidx Hp.
  assert ((rows df).*1 !! p = Some i) as Hi.
  { by rewrite list_lookup_fmap, Hp. }
  rewrite Hidx in Hi. apply lookup_seq in Hi. lia.
Qed.

Lemma values_lookup df p r :
  values df !! p = Some r ↔ ∃ i, rows df !! p = Some (i, r).
Proof.
  unfold values. rewrite list_lookup_fmap. split.
  - destruct (rows df !! p) as [[i r']|]; simpl; [|done].
    intros [= ->]. eauto.
  - intros [i ->]. done.
Qed.

End FrameFacts.

(** ** The views *)

Section AppFacts.
Context {V : Type} `{Countable V}.
Variable read_csv : list byte → Result (DataFrame V).
Variable to_csv : DataFrame V → string.
Variable to_html : DataFrame V → string.
Variable render_template : string → ResultsContext → Result string.

Local Abbreviation upload := (upload_file read_csv to_csv to_html render_template).
Local Abbreviation finds := (upload_finds read_csv).
Local Abbreviation after := (session_after to_csv).
Local Abbreviation context := (results_context to_html).
Local Abbreviation reach := (reachable read_csv to_csv to_html render_template).

Implicit Types (s : Session) (request : Request) (df dups : DataFrame V).

Lemma file_truthy_named file :
  file_truthy file = true → filename file ≠ Some "".
Proof. unfold file_truthy. intros Ht Hname. by rewrite Hname in Ht. Qed.

(** The whole upload view, once the file parses and line 38 returns. *)
Lemma upload_file_finds request df dups s :
  finds request df dups →
  upload request s
  = (match render_template "results.html" (context df dups) with
     | inr page => Page page
     | inl e => Body ("Error processing file: " +:+ exn_str e) 500
     end, after dups s).
Proof.
  intros (file & Hfile & Htruthy & Hread & Hdups).
  unfold upload_file, run_view, upload_handler. rewrite Hfile.
  rewrite decide_False by by apply file_truthy_named.
  rewrite Htruthy.
  unfold try_except, upload_try, mbind, handler_bind, lift.
  rewrite Hread, Hdups. unfold session_after, results_context.
  destruct (empty dups); simpl;
    by destruct (render_template _ _).
Qed.

(** Every request either leaves the session alone or is an upload that
    got as far as line 38. *)
Lemma upload_file_session request s :
  (upload request s).2 = s
  ∨ ∃ df dups, finds request df dups ∧ (upload request s).2 = after dups s.
Proof.
  destruct (files request !! "file") as [file|] eqn:Hfile.
  2: { left. unfold upload_file, run_view, upload_handler. by rewrite Hfile. }
  destruct (decide (filename file = Some "")) as [Hname|Hname].
  { left. unfold upload_file, run_view, upload_handler.
    rewrite Hfile. by rewrite decide_True. }
  destruct (file_truthy file) eqn:Htruthy.
  2: { left. unfold upload_file, run_view, upload_handler.
       rewrite Hfile. rewrite decide_False by done. by rewrite Htruthy. }
  destruct (read_csv (stream file)) as [e|df] eqn:Hread.
  { left. unfold upload_file, run_view, upload_handler.
    rewrite Hfile. rewrite decide_False by done. rewrite Htruthy.
    unfold try_except, upload_try, mbind, handler_bind, lift.
    by rewrite Hread. }
  destruct (find_duplicates df) as [e|dups] eqn:Hdups.
  { left. unfold upload_file, run_view, upload_handler.
    rewrite Hfile. rewrite decide_False by done. rewrite Htruthy.
    unfold try_except, upload_try, mbind, handler_bind, lift.
    by rewrite Hread, Hdups. }
  right. exists df, dups.
  assert (finds request df dups) as Hf by (by exists file).
  split; [done|]. by rewrite (upload_file_finds _ _ _ _ Hf).
Qed.

(** A rendered page means the upload parsed its file. *)
Lemma upload_file_page request s page s' :
  upload request s = (Page page, s') →
  ∃ df dups, finds request df dups
    ∧ render_template "results.html" (context df dups) = inr page
    ∧ s' = after dups s.
Proof.
  intros Hup.
  destruct (files request !! "file") as [file|] eqn:Hfile.
  2: { unfold upload_file, run_view, upload_handler in Hup.
       by rewrite Hfile in Hup. }
  destruct (decide (filename file = Some "")) as [Hname|Hname].
  { unfold upload_file, run_view, upload_handler in Hup.
    rewrite Hfile in Hup. by rewrite decide_True in Hup. }
  destruct (file_truthy file) eqn:Htruthy.
  2: { unfold upload_file, run_view, upload_handler in Hup.
       rewrite Hfile in Hup. rewrite decide_False in Hup by done.
       by rewrite Htruthy in Hup. }
  destruct (read_csv (stream file)) as [e|df] eqn:Hread.
  { unfold upload_file, run_view, upload_handler in Hup.
    rewrite Hfile in Hup. rewrite decide_False in Hup by done.
    rewrite Htruthy in Hup.
    unfold try_except, upload_try, mbind, handler_bind, lift in Hup.
    by rewrite Hread in Hup. }
  destruct (find_duplicates df) as [e|dups] eqn:Hdups.
  { unfold upload_file, run_view, upload_handler in Hup.
    rewrite Hfile in Hup. rewrite decide_False in Hup by done.
    rewrite Htruthy in Hup.
    unfold try_except, upload_try, mbind, handler_bind, lift in Hup.
    by rewrite Hread, Hdups in Hup. }
  assert (finds request df dups) as Hf by (by exists file).
  rewrite (upload_file_finds _ _ _ _ Hf) in Hup.
  exists df, dups. split; [done|].
  destruct (render_template _ _) as [e|page']; simplify_eq; done.
Qed.

(** Line 38 returns a frame that is empty only for want of rows. *)
Lemma find_duplicates_empty df dups :
  find_duplicates df = inr dups → empty dups = true ↔ rows dups = [].
Proof.
  unfold find_duplicates, getitem_bool. case_decide as Hlen; [|done].
  intros [= <-]. split; [|apply empty_no_rows].
  unfold empty at 1. simpl. destruct (columns df) eqn:Hcols.
  - intros _. unfold duplicated, empty in *. rewrite Hcols in *.
    simpl in Hlen. by destruct (rows df).
  - by destruct (select_rows _ _).
Qed.

Lemma after_nonempty dups s :
  empty dups = false →
  after dups s
  = <["has_duplicates":=PyBool true]>
      (<["duplicates_csv":=PyStr (to_csv dups)]> s).
Proof. unfold session_after. by intros ->. Qed.

Lemma after_empty dups s :
  empty dups = true →
  after dups s = delete "duplicates_csv" (<["has_duplicates":=PyBool false]> s).
Proof. unfold session_after. by intros ->. Qed.

(** The download view never writes. *)
Lemma download_session s : (download_duplicates s).2 = s.
Proof.
  unfold download_duplicates, run_view, download_handler.
  unfold mbind, handler_bind, session_get, mret, handler_ret, lift.
  destruct (negb _); [done|].
  destruct (s !! "duplicates_csv") as [[b|csv]|]; simpl; try done.
  - by destruct (negb b).
  - by destruct (negb _).
Qed.

Lemma download_flag_unset s :
  flag_set s = false → download_duplicates s = (no_duplicates, s).
Proof.
  unfold flag_set. intros Hflag.
  unfold download_duplicates, run_view, download_handler.
  unfold mbind, handler_bind, session_get. by rewrite Hflag.
Qed.

Lemma download_stored s csv :
  s !! "has_duplicates" = Some (PyBool true) →
  s !! "duplicates_csv" = Some (PyStr csv) → csv ≠ "" →
  download_duplicates s
  = (SendFile (encode_utf8 csv) "text/csv" true "duplicates.csv", s).
Proof.
  intros Hflag Hcsv Hne.
  unfold download_duplicates, run_view, download_handler.
  unfold mbind, handler_bind, session_get. rewrite Hflag. simpl.
  rewrite Hcsv. simpl.
  apply String.eqb_neq in Hne. by rewrite Hne.
Qed.

Lemma run_app (rs1 rs2 : list Req) : ∀ s,
  run read_csv to_csv to_html render_template (rs1 ++ rs2) s
  = run read_csv to_csv to_html render_template rs2
      (run read_csv to_csv to_html render_template rs1 s).
Proof. induction rs1 as [|r rs1 IH]; intros s; simpl; [done|apply IH]. Qed.

Lemma reachable_empty : reach ∅.
Proof. by exists []. Qed.

Lemma reachable_serve r s :
  reach s → reach (serve read_csv to_csv to_html render_template r s).2.
Proof. intros [rs ->]. exists (rs ++ [r]). by rewrite run_app. Qed.

Lemma session_ok_iff s : session_ok s → flag_set s = true ↔ csv_stored s.
Proof.
  unfold flag_set. intros [[Hflag Hcsv]|[Hflag Hcsv]].
  - by rewrite Hflag.
  - unfold flag_set in Hflag. rewrite Hflag. split; [done|].
    intros (csv & Hs & _). congruence.
Qed.

Section Invariant.
(** The serializer writes at least a header line. *)
Hypothesis to_csv_nonempty : ∀ d, empty d = false → to_csv d ≠ "".

Lemma after_ok dups s : session_ok (after dups s).
Proof.
  destruct (empty dups) eqn:E.
  - right. rewrite after_empty by done. unfold flag_set.
    rewrite lookup_delete_ne by done.
    by rewrite lookup_insert_eq, lookup_delete_eq.
  - left. rewrite after_nonempty by done.
    rewrite lookup_insert_eq. split; [done|].
    exists (to_csv dups). rewrite lookup_insert_ne by done.
    rewrite lookup_insert_eq. auto.
Qed.

Lemma serve_ok r s :
  session_ok s →
  session_ok (serve read_csv to_csv to_html render_template r s).2.
Proof.
  intros Hok. destruct r as [request|]; simpl.
  - destruct (upload_file_session request s)
      as [->|(df & dups & _ & ->)]; [done|apply after_ok].
  - by rewrite download_session.
Qed.

Lemma reachable_ok s : reach s → session_ok s.
Proof.
  intros [rs ->].
  assert (∀ s0, session_ok s0 →
    session_ok (run read_csv to_csv to_html render_template rs s0)) as Hrun.
  { induction rs as [|r rs IH]; intros s0 Hok; simpl; [done|].
    by apply IH, serve_ok. }
  apply Hrun. right. unfold flag_set. by rewrite !lookup_empty.
Qed.

(** C10. Provided the serializer never writes the empty text for a
    frame that has rows and columns: in a session reached by any
    requests, after one more upload request (whatever its outcome) the
    flag reads true exactly when a non-empty [duplicates_csv] text is
    stored, and the download view does not answer from its second
    failure branch. *)
Theorem upload_flag_iff_csv_stored s request :
  reach s →
  let s' := (upload request s).2 in
  (flag_set s' = true ↔ csv_stored s')
  ∧ (download_duplicates s').1 ≠ data_missing.
Proof.
  intros Hreach s'.
  assert (session_ok s') as Hok.
  { apply reachable_ok. apply (reachable_serve (Upload request) s Hreach). }
  split; [by apply session_ok_iff|].
  destruct Hok as [[Hflag (csv & Hcsv & Hne)]|[Hflag Hcsv]].
  - by rewrite (download_stored s' csv).
  - by rewrite download_flag_unset.
Qed.

(** C4. Provided the serializer never writes the empty text for a
    frame that has rows and columns: in a session reached by any
    requests, the download view leaves the session as it is; it
    answers with a client error exactly when no export buffer is
    stored, and then with the message of lines 68-69; when a buffer is
    stored it is a text and the answer is the bytes of that text, sent
    as the attachment [duplicates.csv] of type [text/csv]. *)
Theorem download_error_iff_no_buffer s :
  reach s →
  (download_duplicates s).2 = s
  ∧ (client_error (download_duplicates s).1 ↔ export_buffer s = None)
  ∧ (export_buffer s = None → (download_duplicates s).1 = no_duplicates)
  ∧ (∀ v, export_buffer s = Some v →
       ∃ csv, v = PyStr csv
         ∧ (download_duplicates s).1
           = SendFile (encode_utf8 csv) "text/csv" true "duplicates.csv").
Proof.
  intros Hreach. split; [apply download_session|].
  unfold export_buffer.
  destruct (reachable_ok s Hreach)
    as [[Hflag (csv & Hcsv & Hne)]|[Hflag Hcsv]].
  - rewrite (download_stored s csv) by done. rewrite Hcsv. simpl.
    split_and!.
    + unfold client_error. simpl. split; [lia|done].
    + done.
    + intros v [= <-]. eauto.
  - rewrite download_flag_unset by done. rewrite Hcsv. simpl.
    split_and!; [|done|done].
    unfold client_error. simpl. split; [done|lia].
Qed.

End Invariant.

(** C2. Take an upload that parses its file and finds at least one
    duplicate row, and another that parses its file and finds none.
    From any session, the first leaves the serialization of its own
    duplicate subset in the export buffer and sets the flag, and the
    second leaves no export buffer and a false flag.  In the sequence
    first upload, download, second upload, download, the first download
    leaves the session as it was and the second download answers 400
    with the message of lines 68-69: it sends no file. *)
Theorem upload_overwrites_or_clears_buffer
    request1 df1 dups1 request2 df2 dups2 (s s0 : Session) :
  finds request1 df1 dups1 → rows dups1 ≠ [] →
  finds request2 df2 dups2 → rows dups2 = [] →
  (export_buffer (upload request1 s).2 = Some (PyStr (to_csv dups1))
    ∧ (upload request1 s).2 !! "has_duplicates" = Some (PyBool true))
  ∧ (export_buffer (upload request2 s).2 = None
    ∧ (upload request2 s).2 !! "has_duplicates" = Some (PyBool false))
  ∧ let s1 := (upload request1 s0).2 in
    let s2 := (download_duplicates s1).2 in
    let s3 := (upload request2 s2).2 in
    s2 = s1
    ∧ download_duplicates s3 = (no_duplicates, s3)
    ∧ client_error (download_duplicates s3).1.
Proof.
  intros Hf1 Hrows1 Hf2 Hrows2.
  assert (empty dups1 = false) as He1.
  { destruct Hf1 as (? & _ & _ & _ & Hd).
    apply not_true_is_false. by rewrite (find_duplicates_empty _ _ Hd). }
  assert (empty dups2 = true) as He2.
  { destruct Hf2 as (? & _ & _ & _ & Hd).
    by rewrite (find_duplicates_empty _ _ Hd). }
  assert (∀ s', export_buffer (upload request2 s').2 = None
                ∧ (upload request2 s').2 !! "has_duplicates"
                  = Some (PyBool false)) as Hclear.
  { intros s'. rewrite (upload_file_finds _ _ _ _ Hf2). simpl.
    rewrite after_empty by done. unfold export_buffer.
    rewrite lookup_delete_eq, lookup_delete_ne by done.
    by rewrite lookup_insert_eq. }
  split_and!; try apply Hclear.
  - rewrite (upload_file_finds _ _ _ _ Hf1). simpl.
    rewrite after_nonempty by done. unfold export_buffer.
    rewrite lookup_insert_ne by done. by rewrite lookup_insert_eq.
  - rewrite (upload_file_finds _ _ _ _ Hf1). simpl.
    rewrite after_nonempty by done. by rewrite lookup_insert_eq.
  - intros s1 s2 s3.
    assert (flag_set s3 = false) as Hflag.
    { unfold flag_set, s3. by rewrite (proj2 (Hclear s2)). }
    split_and!.
    + apply download_session.
    + by apply download_flag_unset.
    + rewrite download_flag_unset by done.
      unfold client_error. simpl. lia.
Qed.

(** C3 (as the code has it). When the uploaded file does not parse, the
    upload view answers with status 500, a server error, and the body
    "Error processing file: " followed by the text of the exception; the
    session is left exactly as it was. *)
Theorem upload_parse_error_is_500 request file e s :
  files request !! "file" = Some file →
  file_truthy file = true →
  read_csv (stream file) = inl e →
  upload request s = (Body ("Error processing file: " +:+ exn_str e) 500, s)
  ∧ ¬ client_error (upload request s).1.
Proof.
  intros Hfile Htruthy Hread.
  assert (upload request s
          = (Body ("Error processing file: " +:+ exn_str e) 500, s)) as ->.
  { unfold upload_file, run_view, upload_handler. rewrite Hfile.
    rewrite decide_False by by apply file_truthy_named.
    rewrite Htruthy.
    unfold try_except, upload_try, mbind, handler_bind, lift.
    by rewrite Hread. }
  split; [done|]. unfold client_error. simpl. lia.
Qed.

(** C8. When the upload parses its file into the frame [df], the page it
    answers with is rendered with [original_data] set to the HTML of
    [df] itself, the frame as loaded with every row in place, whatever
    the duplicate subset is. *)
Theorem upload_original_view_is_table request df dups s page :
  finds request df dups →
  render_template "results.html"
    {| original_data := to_html df;
       duplicate_data :=
         if negb (empty dups) then Some (to_html dups) else None;
       has_duplicates := negb (empty dups) |} = inr page →
  (upload request s).1 = Page page.
Proof.
  intros Hf Hpage. rewrite (upload_file_finds _ _ _ _ Hf).
  unfold results_context. by rewrite Hpage.
Qed.

(** C9. When the uploaded file parses into a frame without rows, line 38
    returns a frame without rows (count 0); if the page renders, the
    upload answers with that page, rendered with no duplicate table and
    [has_duplicates] false, and the session it leaves has a false flag
    and no export buffer. *)
Theorem upload_empty_table request file df s page :
  files request !! "file" = Some file →
  file_truthy file = true →
  read_csv (stream file) = inr df →
  rows df = [] →
  render_template "results.html"
    {| original_data := to_html df;
       duplicate_data := None;
       has_duplicates := false |} = inr page →
  find_duplicates df = inr (mkFrame (columns df) [])
  ∧ len (mkFrame (columns df) (@nil (nat * list V))) = 0
  ∧ (upload request s).1 = Page page
  ∧ (upload request s).2 !! "has_duplicates" = Some (PyBool false)
  ∧ export_buffer (upload request s).2 = None.
Proof.
  intros Hfile Htruthy Hread Hrows Hpage.
  assert (find_duplicates df = inr (mkFrame (columns df) [])) as Hdups.
  { rewrite find_duplicates_total by (by intros _).
    unfold duplicated. rewrite empty_no_rows by done. by rewrite Hrows. }
  assert (finds request df (mkFrame (columns df) [])) as Hf
    by (by exists file).
  rewrite (upload_file_finds _ _ _ _ Hf).
  unfold results_context, session_after, export_buffer.
  rewrite (empty_no_rows (mkFrame (columns df) [])) by done. simpl.
  rewrite Hpage, lookup_delete_eq, lookup_delete_ne by done.
  by rewrite lookup_insert_eq.
Qed.

End AppFacts.

(** ** The duplicate subset is closed under twins *)

Section Closure.
Context {V : Type} `{Countable V}.
Implicit Types (vals : list (list V)) (v : list V) (df D : DataFrame V).

Lemma occurrences_app vals1 vals2 v :
  occurrences (vals1 ++ vals2) v = occurrences vals1 v + occurrences vals2 v.
Proof. unfold occurrences. by rewrite filter_app, length_app. Qed.

Lemma occurrences_cons_eq vals v :
  occurrences (v :: vals) v = S (occurrences vals v).
Proof. unfold occurrences. by rewrite filter_cons_True. Qed.

Lemma occurrences_pos vals v : 0 < occurrences vals v ↔ v ∈ vals.
Proof.
  unfold occurrences. split.
  - intros Hpos. destruct (filter _ vals) as [|w ws] eqn:E; simpl in Hpos; [lia|].
    assert (w ∈ filter (λ w, w = v) vals) as Hin by (rewrite E; left).
    by apply list_elem_of_filter in Hin as [-> ?].
  - intros Hin.
    assert (v ∈ filter (λ w, w = v) vals) as Hf
      by (by apply list_elem_of_filter).
    destruct (filter _ vals); simpl; [by apply elem_of_nil in Hf|lia].
Qed.

(** A row has a twin exactly when its value occurs at least twice. *)
Lemma has_twin_occurrences vals j v :
  vals !! j = Some v → has_twin vals j ↔ 2 ≤ occurrences vals v.
Proof.
  intros Hj.
  destruct (list_elem_of_split_length _ _ _ Hj) as (l1 & l2 & -> & ->).
  rewrite occurrences_app, occurrences_cons_eq. split.
  - intros (j' & w & Hne & Hw & Hj').
    rewrite Hj in Hw. simplify_eq.
    destruct (decide (j' < length l1)) as [Hlt|Hge].
    + rewrite lookup_app_l in Hj' by done.
      apply list_elem_of_lookup_2, occurrences_pos in Hj'. lia.
    + rewrite lookup_app_r in Hj' by lia.
      destruct (j' - length l1) as [|n] eqn:E; [lia|]. simpl in Hj'.
      apply list_elem_of_lookup_2, occurrences_pos in Hj'. lia.
  - intros Hocc.
    destruct (decide (0 < occurrences l1 v)) as [Hpos|Hzero].
    + apply occurrences_pos, list_elem_of_lookup in Hpos as [j' Hj'].
      pose proof (lookup_lt_Some _ _ _ Hj') as Hlt.
      exists j', v. split_and!; [lia|done|by apply lookup_app_l_Some].
    + assert (0 < occurrences l2 v) as Hpos by lia.
      apply occurrences_pos, list_elem_of_lookup in Hpos as [j' Hj'].
      exists (length l1 + S j'), v. split_and!; [lia|done|].
      rewrite lookup_app_r by lia.
      replace (length l1 + S j' - length l1) with (S j') by lia. done.
Qed.

Lemma occurrences_filter (Q : list V → Prop) `{∀ v, Decision (Q v)} vals v :
  Q v → occurrences (filter Q vals) v = occurrences vals v.
Proof.
  intros HQ. unfold occurrences. f_equal.
  induction vals as [|w vals IH]; [done|].
  rewrite !filter_cons.
  destruct (decide (Q w)) as [HQw|HQw], (decide (w = v)) as [->|Hne];
    rewrite ?filter_cons_True, ?filter_cons_False by done; try done.
  by f_equal.
Qed.

Lemma values_filter (Q : list V → Prop) `{∀ v, Decision (Q v)}
    (rs : list (nat * list V)) :
  (filter (λ x, Q x.2) rs).*2 = filter Q (rs.*2).
Proof.
  induction rs as [|x rs IH]; [done|].
  rewrite fmap_cons, !filter_cons.
  destruct (decide (Q x.2)); rewrite ?fmap_cons; by f_equal.
Qed.

(** Line 38 keeps the rows whose value occurs at least twice. *)
Lemma find_duplicates_filter df :
  has_columns df →
  find_duplicates df
  = inr (mkFrame (columns df)
           (filter (λ x, 2 ≤ occurrences (values df) x.2) (rows df))).
Proof.
  intros Hcols. rewrite find_duplicates_total by done. do 2 f_equal.
  apply (select_rows_filter (λ x, 2 ≤ occurrences (values df) x.2)).
  - by apply duplicated_length.
  - intros p [i r] Hp. rewrite duplicated_spec by done. simpl.
    apply has_twin_occurrences. apply values_lookup. eauto.
Qed.

(** Every row of the duplicate subset has its twin inside the subset. *)
Lemma duplicates_closed df D p :
  has_columns df → find_duplicates df = inr D →
  p < length (values D) → has_twin (values D) p.
Proof.
  intros Hcols Hd Hp. rewrite find_duplicates_filter in Hd by done.
  injection Hd as <-.
  assert (values (mkFrame (columns df)
            (filter (λ x, 2 ≤ occurrences (values df) x.2) (rows df)))
          = filter (λ v, 2 ≤ occurrences (values df) v) (values df)) as E.
  { exact (values_filter (λ v, 2 ≤ occurrences (values df) v) (rows df)). }
  rewrite E in *.
  destruct (lookup_lt_is_Some_2 _ _ Hp) as [v Hv].
  apply (has_twin_occurrences _ _ v Hv).
  pose proof (list_elem_of_lookup_2 _ _ _ Hv) as [HQ _]%list_elem_of_filter.
  by rewrite (occurrences_filter (λ v, 2 ≤ occurrences (values df) v)).
Qed.

(** A frame in which every row has a twin is its own duplicate subset. *)
Lemma find_duplicates_all_twins D :
  has_columns D →
  (∀ p, p < length (values D) → has_twin (values D) p) →
  find_duplicates D = inr D.
Proof.
  intros Hcols Hall. rewrite find_duplicates_total by done.
  destruct D as [cols rs]. simpl. do 2 f_equal.
  rewrite (select_rows_filter (λ _, True)).
  - clear. induction rs as [|x rs IH]; [done|].
    rewrite filter_cons_True by done. by f_equal.
  - by apply (duplicated_length (mkFrame cols rs)).
  - intros p x Hp. split; [done|]. intros _.
    apply (duplicated_spec (mkFrame cols rs)); [done|].
    apply Hall. unfold values. simpl. rewrite length_fmap.
    by eapply lookup_lt_Some.
Qed.

End Closure.

(** C1. For a table as the loader builds it (rows labelled by position,
    no rows without columns), line 38 returns a frame that holds row [i]
    of the table, under its label [i], exactly when some other row [j] is
    equal to it on every column: rows without an equal row are left out
    and every occurrence of a repeated row is kept.  Said by groups: the
    frame holds the rows whose cells occur at least twice in the table. *)
Theorem duplicates_iff_twin {V : Type} `{Countable V} (T : DataFrame V) :
  has_columns T → range_indexed T →
  ∃ D, find_duplicates T = inr D
    ∧ (∀ i r, (i, r) ∈ rows D ↔
         values T !! i = Some r ∧ ∃ j, j ≠ i ∧ values T !! j = Some r)
    ∧ rows D = filter (λ x, 2 ≤ occurrences (values T) x.2) (rows T).
Proof.
  intros Hcols Hrange. eexists. split; [by apply find_duplicates_total|].
  split.
  - intros i r. simpl. rewrite elem_of_select_rows. split.
    + intros (p & Hp & Hmask).
      pose proof (range_indexed_lookup _ _ _ _ Hrange Hp) as ->.
      assert (values T !! p = Some r) as Hv by (apply values_lookup; eauto).
      split; [done|].
      apply duplicated_spec in Hmask as (j & v & Hne & Hj & Hj'); [|done].
      exists j. split; [done|]. congruence.
    + intros (Hv & j & Hne & Hj).
      pose proof Hv as [l Hl]%values_lookup.
      pose proof (range_indexed_lookup _ _ _ _ Hrange Hl) as ->.
      exists i. split; [done|]. apply duplicated_spec; [done|].
      by exists j, r.
  - pose proof (find_duplicates_filter T Hcols) as Hfilter.
    rewrite find_duplicates_total in Hfilter by done.
    by injection Hfilter.
Qed.

(** C7. On a table the loader can build, the rows of the duplicate
    subset, with their labels, are a subsequence of the table's rows: kept
    in the table's order, and under the table's column labels. *)
Theorem duplicates_stable_subsequence {V : Type} `{Countable V}
    (T : DataFrame V) :
  has_columns T →
  ∃ D, find_duplicates T = inr D
    ∧ rows D `sublist_of` rows T
    ∧ columns D = columns T.
Proof.
  intros Hcols. eexists. split; [by apply find_duplicates_total|].
  simpl. split; [apply select_rows_sublist|done].
Qed.

(** ** The codec reads back what it writes *)

Section CsvFacts.
Import Csv.
Implicit Types (f cur rest : string) (row fs : list string).
Implicit Types (acc ls : list (list string)) (D T : DataFrame string).

Lemma str_app_cons c f rest : String c f +:+ rest = String c (f +:+ rest).
Proof. reflexivity. Qed.

Lemma str_app_nil_r f : f +:+ EmptyString = f.
Proof. induction f as [|c f IH]; [done|]. by rewrite str_app_cons, IH. Qed.

Lemma str_app_assoc f1 f2 f3 : (f1 +:+ f2) +:+ f3 = f1 +:+ (f2 +:+ f3).
Proof. induction f1 as [|c f1 IH]; [done|]. by rewrite !str_app_cons, IH. Qed.

Lemma str_app_snoc cur c f : (cur +:+ String c EmptyString) +:+ f = cur +:+ String c f.
Proof. by rewrite str_app_assoc. Qed.

Lemma special_false c :
  special c = false →
  Ascii.eqb c comma = false ∧ Ascii.eqb c dquote = false
  ∧ Ascii.eqb c LF = false.
Proof.
  unfold special. intros Hs.
  repeat (apply orb_false_elim in Hs as [Hs ?]). done.
Qed.

(** Plain characters extend an unquoted field. *)
Lemma tokenize_unquoted f : ∀ cur row acc rest,
  needs_quote f = false →
  tokenize InField cur row acc (f +:+ rest)
  = tokenize InField (cur +:+ f) row acc rest.
Proof.
  induction f as [|c f IH]; intros cur row acc rest Hq.
  - by rewrite str_app_nil_r.
  - simpl in Hq. apply orb_false_elim in Hq as [Hc Hq].
    apply special_false in Hc as (Hcomma & _ & Hlf).
    rewrite str_app_cons. simpl. rewrite Hcomma, Hlf.
    rewrite IH by done. by rewrite str_app_snoc.
Qed.

(** An escaped field up to its closing quote. *)
Lemma tokenize_quoted f : ∀ cur row acc rest,
  tokenize InQuoted cur row acc (escape f +:+ String dquote rest)
  = tokenize QuoteInQuoted (cur +:+ f) row acc rest.
Proof.
  induction f as [|c f IH]; intros cur row acc rest.
  - by rewrite str_app_nil_r.
  - simpl. destruct (Ascii.eqb c dquote) eqn:Hc.
    + apply Ascii.eqb_eq in Hc as ->.
      rewrite !str_app_cons. simpl. rewrite IH. by rewrite str_app_snoc.
    + rewrite str_app_cons. simpl. rewrite Hc, IH. by rewrite str_app_snoc.
Qed.

Lemma tokenize_field_comma f row acc rest :
  tokenize StartField EmptyString row acc (write_field f +:+ String comma rest)
  = tokenize StartField EmptyString (row ++ [f]) acc rest.
Proof.
  unfold write_field. destruct (needs_quote f) eqn:Hq.
  - rewrite str_app_cons, str_app_assoc, str_app_cons. simpl.
    by rewrite tokenize_quoted.
  - destruct f as [|c f]; [done|].
    simpl in Hq. apply orb_false_elim in Hq as [Hc Hq].
    apply special_false in Hc as (Hcomma & Hdq & Hlf).
    rewrite str_app_cons. simpl. rewrite Hcomma, Hdq, Hlf.
    by rewrite tokenize_unquoted.
Qed.

Lemma tokenize_field_LF f row acc rest :
  ¬ (row = [] ∧ f = EmptyString) →
  tokenize StartField EmptyString row acc (write_field f +:+ String LF rest)
  = tokenize StartField EmptyString [] (acc ++ [row ++ [f]]) rest.
Proof.
  intros Hblank. unfold write_field. destruct (needs_quote f) eqn:Hq.
  - rewrite str_app_cons, str_app_assoc, str_app_cons. simpl.
    by rewrite tokenize_quoted.
  - destruct f as [|c f].
    + destruct row; [by destruct Hblank|done].
    + simpl in Hq. apply orb_false_elim in Hq as [Hc Hq].
      apply special_false in Hc as (Hcomma & Hdq & Hlf).
      rewrite str_app_cons. simpl. rewrite Hcomma, Hdq, Hlf.
      by rewrite tokenize_unquoted.
Qed.

Lemma tokenize_join fs : ∀ row acc rest,
  fs ≠ [] → ¬ (row = [] ∧ fs = [EmptyString]) →
  tokenize StartField EmptyString row acc (join_fields fs +:+ String LF rest)
  = tokenize StartField EmptyString [] (acc ++ [row ++ fs]) rest.
Proof.
  induction fs as [|f fs IH]; intros row acc rest Hne Hblank; [done|].
  destruct fs as [|f2 fs].
  - simpl. apply tokenize_field_LF. intros [-> ->]. by apply Hblank.
  - change (join_fields (f :: f2 :: fs))
      with (write_field f +:+ String comma (join_fields (f2 :: fs))).
    rewrite str_app_assoc, str_app_cons, tokenize_field_comma.
    rewrite IH; [|done|].
    + by rewrite <- app_assoc.
    + intros [Hrow _]. by destruct row.
Qed.

Lemma tokenize_row fs acc rest :
  fs ≠ [] →
  tokenize StartField EmptyString [] acc (write_row fs +:+ rest)
  = tokenize StartField EmptyString [] (acc ++ [fs]) rest.
Proof.
  intros Hne. destruct (decide (fs = [EmptyString])) as [->|Hblank].
  - done.
  - assert (write_row fs = join_fields fs +:+ String LF EmptyString) as ->.
    { unfold write_row. by destruct fs as [|[|c f] [|f2 fs]]. }
    rewrite str_app_assoc, str_app_cons.
    rewrite tokenize_join; [done|done|]. by intros [_ ?].
Qed.

Lemma tokenize_lines ls : ∀ acc,
  Forall (λ fs, fs ≠ []) ls →
  tokenize StartField EmptyString [] acc (concat_lines (write_row <$> ls))
  = inr (acc ++ ls).
Proof.
  induction ls as [|fs ls IH]; intros acc Hall.
  - simpl. by rewrite app_nil_r.
  - apply Forall_cons in Hall as [Hfs Hall]. simpl.
    rewrite tokenize_row by done. rewrite IH by done.
    by rewrite <- app_assoc.
Qed.

(** Reading back a written frame gives its columns and its rows,
    relabelled from 0. *)
Lemma read_csv_to_csv D :
  rectangular D → columns D ≠ [] →
  read_csv (encode_utf8 (to_csv D))
  = inr (mkFrame (columns D) (zip (seq 0 (length (values D))) (values D))).
Proof.
  intros Hrect Hcols. unfold read_csv, encode_utf8, to_csv.
  rewrite string_of_list_byte_of_string.
  rewrite tokenize_row by done. rewrite tokenize_lines.
  - simpl. rewrite (proj2 (forallb_forall _ _)); [done|].
    intros r Hr%list_elem_of_In. apply Nat.eqb_eq.
    unfold rectangular in Hrect. rewrite Forall_forall in Hrect. auto.
  - unfold rectangular in Hrect. eapply Forall_impl; [done|].
    simpl. intros r Hr ->. by destruct (columns D).
Qed.

Lemma write_row_nonempty fs : write_row fs ≠ EmptyString.
Proof.
  unfold write_row.
  assert (∀ f, f +:+ String LF EmptyString ≠ EmptyString) as Hne
    by (by intros [|c f]).
  by destruct fs as [|[|c f] [|f2 fs]].
Qed.

(** The serializer always writes the header line. *)
Lemma to_csv_nonempty D : to_csv D ≠ EmptyString.
Proof.
  unfold to_csv. pose proof (write_row_nonempty (columns D)) as Hne.
  by destruct (write_row (columns D)).
Qed.

End CsvFacts.

(** C6. With the delimited-text codec: take the duplicate subset of a
    loadable table with rows as wide as its header, and let it have rows
    and columns, so that the upload serializes it.  Reading its
    serialization back gives the same columns and the same rows; the
    reloaded frame is its own duplicate subset, so every row is flagged
    again and the count is the number of exported rows; when the export
    is two rows, they are equal and the count is 2. *)
Theorem export_reload_flags_again (T D : DataFrame string) :
  has_columns T → Csv.rectangular T →
  find_duplicates T = inr D → empty D = false →
  ∃ D', Csv.read_csv (encode_utf8 (Csv.to_csv D)) = inr D'
    ∧ columns D' = columns D ∧ values D' = values D
    ∧ find_duplicates D' = inr D'
    ∧ len D' = len D
    ∧ (len D = 2 → ∃ r, values D' = [r; r] ∧ len D' = 2).
Proof.
  intros Hcols Hrect Hd Hne.
  apply empty_false in Hne as [HDcols HDrows].
  assert (Csv.rectangular D) as HDrect.
  { pose proof Hd as Hd'. rewrite find_duplicates_total in Hd' by done.
    injection Hd' as <-. unfold Csv.rectangular, values in *. simpl.
    rewrite Forall_forall in Hrect. apply Forall_forall. intros r Hr.
    apply Hrect. eapply elem_of_sublist; [done|].
    apply fmap_sublist, select_rows_sublist. }
  set (D' := mkFrame (columns D)
               (zip (seq 0 (length (values D))) (values D))).
  assert (values D' = values D) as Hvals.
  { unfold values at 1. simpl. apply snd_zip. by rewrite length_seq. }
  assert (len D' = len D) as Hlen.
  { unfold len. rewrite <- (length_fmap snd (rows D')).
    fold (values D'). rewrite Hvals. unfold values. by rewrite length_fmap. }
  exists D'. split_and!; try done.
  - by apply read_csv_to_csv.
  - apply find_duplicates_all_twins; [by intros ?|].
    rewrite Hvals. intros p Hp. by eapply duplicates_closed.
  - intros H2. rewrite Hvals, Hlen. unfold len in H2.
    assert (length (values D) = 2) as Hl
      by (unfold values; by rewrite length_fmap).
    destruct (duplicates_closed T D 0 Hcols Hd) as (j & v & Hj & H0 & Hj');
      [lia|].
    destruct (values D) as [|a [|b [|c l]]]; simpl in Hl; try lia.
    exists a. split; [|done].
    destruct j as [|[|j]]; simpl in *; [done| |done].
    by simplify_eq.
Qed.

(** C5. For the table with columns (X, Y) and rows ("a",1), ("b",2),
    ("a",1), ("c",3), line 38 returns the rows labelled 0 and 2, both
    ("a",1): two rows; the table itself has its 4 rows. *)
Theorem example_partition :
  find_duplicates example_table = inr example_duplicates
  ∧ index example_duplicates = [0; 2]
  ∧ values example_duplicates = [[CStr "a"; CInt 1]; [CStr "a"; CInt 1]]
  ∧ len example_duplicates = 2
  ∧ len example_table = 4.
Proof. split_and!; by vm_compute. Qed.

(** ** The sample uploads under the codec *)

Lemma pair_upload_finds :
  upload_finds Csv.read_csv pair_upload pair_table pair_table.
Proof.
  exists (mkFile (Some "pair.csv") (list_byte_of_string (text ["X"; "a"; "a"]))).
  split_and!; by vm_compute.
Qed.

Lemma distinct_upload_finds :
  upload_finds Csv.read_csv distinct_upload distinct_table (mkFrame ["X"] []).
Proof.
  exists (mkFile (Some "distinct.csv")
            (list_byte_of_string (text ["X"; "a"; "b"]))).
  split_and!; by vm_compute.
Qed.

Lemma csv_to_csv_nonempty (d : DataFrame string) :
  empty d = false → Csv.to_csv d ≠ "".
Proof. intros _. apply to_csv_nonempty. Qed.

(** Instance: the sample table, which is labelled by position and has
    columns. *)
Lemma duplicates_iff_twin_witness :
  has_columns example_table ∧ range_indexed example_table
  ∧ ∃ D, find_duplicates example_table = inr D
      ∧ (∀ i r, (i, r) ∈ rows D ↔
           values example_table !! i = Some r
           ∧ ∃ j, j ≠ i ∧ values example_table !! j = Some r)
      ∧ rows D = filter (λ x, 2 ≤ occurrences (values example_table) x.2)
                   (rows example_table).
Proof.
  assert (has_columns example_table) as Hcols by (intros Hc; discriminate Hc).
  assert (range_indexed example_table) as Hrange by reflexivity.
  split; [exact Hcols|]. split; [exact Hrange|].
  exact (duplicates_iff_twin example_table Hcols Hrange).
Defined.

(** Instance: the order of the rows kept from the sample table. *)
Lemma duplicates_stable_subsequence_witness :
  has_columns example_table
  ∧ ∃ D, find_duplicates example_table = inr D
      ∧ rows D `sublist_of` rows example_table
      ∧ columns D = columns example_table.
Proof.
  assert (has_columns example_table) as Hcols by (intros Hc; discriminate Hc).
  split; [exact Hcols|].
  exact (duplicates_stable_subsequence example_table Hcols).
Defined.

(** Instance: a new session after the upload of two equal rows, under the
    codec. *)
Lemma upload_flag_iff_csv_stored_witness :
  reachable Csv.read_csv Csv.to_csv Csv.to_html Csv.render_template ∅
  ∧ let s' := (upload_file Csv.read_csv Csv.to_csv Csv.to_html
                 Csv.render_template pair_upload ∅).2 in
    (flag_set s' = true ↔ csv_stored s')
    ∧ (download_duplicates s').1 ≠ data_missing.
Proof.
  assert (reachable Csv.read_csv Csv.to_csv Csv.to_html Csv.render_template ∅)
    as Hreach by (exists []; reflexivity).
  split; [exact Hreach|].
  exact (upload_flag_iff_csv_stored Csv.read_csv Csv.to_csv Csv.to_html
           Csv.render_template csv_to_csv_nonempty ∅ pair_upload Hreach).
Defined.

(** Instance: the download that follows the upload of two equal rows,
    under the codec. *)
Lemma download_error_iff_no_buffer_witness :
  let s := (upload_file Csv.read_csv Csv.to_csv Csv.to_html
              Csv.render_template pair_upload ∅).2 in
  reachable Csv.read_csv Csv.to_csv Csv.to_html Csv.render_template s
  ∧ (download_duplicates s).2 = s
  ∧ (client_error (download_duplicates s).1 ↔ export_buffer s = None)
  ∧ (export_buffer s = None → (download_duplicates s).1 = no_duplicates)
  ∧ (∀ v, export_buffer s = Some v →
       ∃ csv, v = PyStr csv
         ∧ (download_duplicates s).1
           = SendFile (encode_utf8 csv) "text/csv" true "duplicates.csv").
Proof.
  intros s.
  assert (reachable Csv.read_csv Csv.to_csv Csv.to_html Csv.render_template s)
    as Hreach by (exists [Upload pair_upload]; reflexivity).
  split; [exact Hreach|].
  exact (download_error_iff_no_buffer Csv.read_csv Csv.to_csv Csv.to_html
           Csv.render_template csv_to_csv_nonempty s Hreach).
Defined.

(** Instance: the upload of two equal rows and the upload of two distinct
    rows, under the codec, each from a new session and then in sequence. *)
Lemma upload_overwrites_or_clears_buffer_witness :
  let upload := upload_file Csv.read_csv Csv.to_csv Csv.to_html
                  Csv.render_template in
  (export_buffer (upload pair_upload ∅).2 = Some (PyStr (Csv.to_csv pair_table))
    ∧ (upload pair_upload ∅).2 !! "has_duplicates" = Some (PyBool true))
  ∧ (export_buffer (upload distinct_upload ∅).2 = None
    ∧ (upload distinct_upload ∅).2 !! "has_duplicates" = Some (PyBool false))
  ∧ let s1 := (upload pair_upload ∅).2 in
    let s2 := (download_duplicates s1).2 in
    let s3 := (upload distinct_upload s2).2 in
    s2 = s1
    ∧ download_duplicates s3 = (no_duplicates, s3)
    ∧ client_error (download_duplicates s3).1.
Proof.
  assert (rows pair_table ≠ []) as Hrows by (intros Hr; discriminate Hr).
  exact (upload_overwrites_or_clears_buffer Csv.read_csv Csv.to_csv
           Csv.to_html Csv.render_template
           pair_upload pair_table pair_table
           distinct_upload distinct_table (mkFrame ["X"] []) ∅ ∅
           pair_upload_finds Hrows distinct_upload_finds eq_refl).
Defined.

(** Instance: a file whose last line is wider than its header. *)
Lemma upload_parse_error_is_500_witness :
  let upload := upload_file Csv.read_csv Csv.to_csv Csv.to_html
                  Csv.render_template in
  upload ragged_upload ∅
  = (Body "Error processing file: Error tokenizing data. C error: wrong number of fields"
       500, ∅)
  ∧ ¬ client_error (upload ragged_upload ∅).1.
Proof.
  exact (upload_parse_error_is_500 Csv.read_csv Csv.to_csv Csv.to_html
           Csv.render_template ragged_upload
           (mkFile (Some "ragged.csv")
              (list_byte_of_string (text ["X,Y"; "1,2"; "1,2,3"])))
           (Raise "ParserError"
              "Error tokenizing data. C error: wrong number of fields")
           ∅ eq_refl eq_refl eq_refl).
Defined.

(** The file of [ragged_upload] does not parse, and the answer is a 500,
    which is not a client error. *)
Lemma parse_error_is_not_client_error :
  let upload := upload_file Csv.read_csv Csv.to_csv Csv.to_html
                  Csv.render_template in
  Csv.read_csv (list_byte_of_string (text ["X,Y"; "1,2"; "1,2,3"]))
  = inl (Raise "ParserError"
           "Error tokenizing data. C error: wrong number of fields")
  ∧ status_code (upload ragged_upload ∅).1 = 500
  ∧ ¬ client_error (upload ragged_upload ∅).1.
Proof.
  split_and!; [by vm_compute..|].
  unfold client_error. vm_compute. intros [_ Hlt].
  by apply Nat.lt_irrefl in Hlt.
Qed.

(** Instance: the page for the upload of two equal rows, under the codec. *)
Lemma upload_original_view_is_table_witness :
  (upload_file Csv.read_csv Csv.to_csv Csv.to_html Csv.render_template
     pair_upload ∅).1
  = Page (Csv.to_html pair_table +:+ Csv.to_html pair_table).
Proof.
  exact (upload_original_view_is_table Csv.read_csv Csv.to_csv Csv.to_html
           Csv.render_template pair_upload pair_table pair_table ∅
           (Csv.to_html pair_table +:+ Csv.to_html pair_table)
           pair_upload_finds eq_refl).
Defined.

(** Instance: the upload of a header line alone, under the codec. *)
Lemma upload_empty_table_witness :
  let upload := upload_file Csv.read_csv Csv.to_csv Csv.to_html
                  Csv.render_template in
  find_duplicates header_table = inr (mkFrame ["X"; "Y"] [])
  ∧ len (mkFrame ["X"; "Y"] (@nil (nat * list string))) = 0
  ∧ (upload header_upload ∅).1
    = Page (Csv.to_html header_table +:+ "No duplicates found.")
  ∧ (upload header_upload ∅).2 !! "has_duplicates" = Some (PyBool false)
  ∧ export_buffer (upload header_upload ∅).2 = None.
Proof.
  exact (upload_empty_table Csv.read_csv Csv.to_csv Csv.to_html
           Csv.render_template header_upload
           (mkFile (Some "header.csv") (list_byte_of_string (text ["X,Y"])))
           header_table ∅
           (Csv.to_html header_table +:+ "No duplicates found.")
           eq_refl eq_refl eq_refl eq_refl eq_refl).
Defined.

(** Instance: the table of two equal rows, which is its own duplicate
    subset. *)
Lemma export_reload_flags_again_witness :
  ∃ D', Csv.read_csv (encode_utf8 (Csv.to_csv pair_table)) = inr D'
    ∧ columns D' = columns pair_table ∧ values D' = values pair_table
    ∧ find_duplicates D' = inr D'
    ∧ len D' = len pair_table
    ∧ (len pair_table = 2 → ∃ r, values D' = [r; r] ∧ len D' = 2).
Proof.
  assert (has_columns pair_table) as Hcols by (intros Hc; discriminate Hc).
  assert (Csv.rectangular pair_table) as Hrect
    by (repeat constructor).
  exact (export_reload_flags_again pair_table pair_table Hcols Hrect
           eq_refl eq_refl).
Defined.


(** ** The upload view, case by case *)

Section UploadCases.
Context {V : Type} `{Countable V}.
Variable read_csv : list byte → Result (DataFrame V).
Variable to_csv : DataFrame V → string.
Variable to_html : DataFrame V → string.
Variable render_template : string → ResultsContext → Result string.

Local Abbreviation upload := (upload_file read_csv to_csv to_html render_template).
Local Abbreviation finds := (upload_finds read_csv).
Local Abbreviation after := (session_after to_csv).
Local Abbreviation context := (results_context to_html).
Local Abbreviation reach := (reachable read_csv to_csv to_html render_template).

Implicit Types (s : Session) (request : Request) (df dups : DataFrame V).

(** The five ways through the upload view. *)
Lemma upload_file_cases request :
  (files request !! "file" = None
     ∧ ∀ s, upload request s = (Body "No file part" 400, s))
  ∨ (∃ file, files request !! "file" = Some file ∧ filename file = Some ""
       ∧ ∀ s, upload request s = (Body "No selected file" 400, s))
  ∨ (∃ file, files request !! "file" = Some file ∧ filename file = None
       ∧ ∀ s, upload request s = (Body "Something went wrong" 500, s))
  ∨ (∃ file e, files request !! "file" = Some file ∧ file_truthy file = true
       ∧ (read_csv (stream file) = inl e
          ∨ ∃ df, read_csv (stream file) = inr df ∧ find_duplicates df = inl e)
       ∧ ∀ s, upload request s
              = (Body ("Error processing file: " +:+ exn_str e) 500, s))
  ∨ (∃ df dups, finds request df dups
       ∧ ∀ s, upload request s
              = (match render_template "results.html" (context df dups) with
                 | inr page => Page page
                 | inl e => Body ("Error processing file: " +:+ exn_str e) 500
                 end, after dups s)).
Proof.
  destruct (files request !! "file") as [file|] eqn:Hfile.
  2: { left. split; [done|]. intros s.
       unfold upload_file, run_view, upload_handler. by rewrite Hfile. }
  right.
  destruct (decide (filename file = Some "")) as [Hname|Hname].
  { left. exists file. split_and!; [done..|]. intros s.
    unfold upload_file, run_view, upload_handler.
    rewrite Hfile. by rewrite decide_True. }
  right.
  destruct (file_truthy file) eqn:Htruthy.
  2: { left. exists file. split_and!; [done| |].
       - unfold file_truthy in Htruthy.
         destruct (filename file) as [name|]; [|done].
         apply negb_false_iff, String.eqb_eq in Htruthy. by subst name.
       - intros s. unfold upload_file, run_view, upload_handler.
         rewrite Hfile. rewrite decide_False by done. by rewrite Htruthy. }
  right.
  destruct (read_csv (stream file)) as [e|df] eqn:Hread.
  { left. exists file, e. split_and!; [done|done|by left|]. intros s.
    unfold upload_file, run_view, upload_handler.
    rewrite Hfile. rewrite decide_False by done. rewrite Htruthy.
    unfold try_except, upload_try, mbind, handler_bind, lift.
    by rewrite Hread. }
  destruct (find_duplicates df) as [e|dups] eqn:Hdups.
  { left. exists file, e. split_and!; [done|done|right; eauto|]. intros s.
    unfold upload_file, run_view, upload_handler.
    rewrite Hfile. rewrite decide_False by done. rewrite Htruthy.
    unfold try_except, upload_try, mbind, handler_bind, lift.
    by rewrite Hread, Hdups. }
  right. exists df, dups.
  assert (finds request df dups) as Hf by (by exists file).
  split; [done|]. intros s. apply upload_file_finds. done.
Qed.




(** X2. The upload view answers with a rendered page exactly when the
    part named [file] has a filename, its content parses, line 38 returns,
    and the template renders that page from the two tables. *)
Theorem upload_page_iff request s page :
  (upload request s).1 = Page page ↔
  ∃ df dups, finds request df dups
    ∧ render_template "results.html"
        {| original_data := to_html df;
           duplicate_data :=
             if negb (empty dups) then Some (to_html dups) else None;
           has_duplicates := negb (empty dups) |} = inr page.
Proof.
  split.
  - destruct (upload request s) as [r s'] eqn:Hup. simpl. intros ->.
    destruct (upload_file_page _ _ _ _ _ _ _ _ Hup)
      as (df & dups & Hf & Hpage & _).
    by exists df, dups.
  - intros (df & dups & Hf & Hpage).
    rewrite (upload_file_finds _ _ _ _ _ _ _ _ Hf).
    unfold results_context. by rewrite Hpage.
Qed.


Lemma after_lookup_other dups s k :
  k ≠ "has_duplicates" → k ≠ "duplicates_csv" → after dups s !! k = s !! k.
Proof.
  intros Hflag Hcsv. unfold session_after. destruct (negb (empty dups)).
  - by rewrite !lookup_insert_ne.
  - rewrite lookup_delete_ne by done. by rewrite lookup_insert_ne.
Qed.

(** X4. The upload view writes no session key other than [has_duplicates]
    and [duplicates_csv]: every other key keeps its value, or its
    absence. *)
Theorem upload_writes_two_keys request s k :
  k ≠ "has_duplicates" → k ≠ "duplicates_csv" →
  (upload_file read_csv to_csv to_html render_template request s).2 !! k
  = s !! k.
Proof.
  intros Hflag Hcsv.
  destruct (upload_file_session read_csv to_csv to_html render_template
              request s) as [->|(df & dups & _ & ->)]; [done|].
  by apply after_lookup_other.
Qed.

(** X5. The answer of the upload view does not depend on the session:
    what an earlier request stored changes neither the status nor the
    page. *)
Theorem upload_response_ignores_session request s s' :
  (upload_file read_csv to_csv to_html render_template request s).1
  = (upload_file read_csv to_csv to_html render_template request s').1.
Proof.
  destruct (upload_file_cases request)
    as [[Hfile Hup]|[(file & Hfile & Hname & Hup)|[(file & Hfile & Hname & Hup)
       |[(file & e & Hfile & Htruthy & _ & Hup)|(df & dups & Hf & Hup)]]]];
    by rewrite (Hup s), (Hup s').
Qed.

(** X6. The session is written before the page is rendered, and a raise
    in the rendering does not undo it: when the file parses and the
    template raises, the answer is the 500 of the [except] clause and the
    session holds the flag of this upload, with its serialized duplicates
    when there are some. *)
Theorem upload_render_failure_keeps_write request df dups e s :
  finds request df dups →
  render_template "results.html"
    {| original_data := to_html df;
       duplicate_data :=
         if negb (empty dups) then Some (to_html dups) else None;
       has_duplicates := negb (empty dups) |} = inl e →
  (upload request s).1 = Body ("Error processing file: " +:+ exn_str e) 500
  ∧ (upload request s).2 !! "has_duplicates"
    = Some (PyBool (negb (empty dups)))
  ∧ export_buffer (upload request s).2
    = if negb (empty dups) then Some (PyStr (to_csv dups)) else None.
Proof.
  intros Hf Hrender. rewrite (upload_file_finds _ _ _ _ _ _ _ _ Hf).
  unfold results_context. rewrite Hrender. simpl. split; [done|].
  unfold session_after, export_buffer. destruct (negb (empty dups)).
  - rewrite lookup_insert_eq, lookup_insert_ne by done.
    by rewrite lookup_insert_eq.
  - rewrite lookup_delete_ne, lookup_delete_eq by done.
    by rewrite lookup_insert_eq.
Qed.

(** What an upload leaves overwrites what an earlier one left. *)
Lemma after_after dups1 dups2 s :
  after dups2 (after dups1 s) = after dups2 s.
Proof.
  unfold session_after.
  destruct (negb (empty dups1)), (negb (empty dups2));
    apply map_eq; intros k;
    (destruct (decide (k = "has_duplicates")) as [Hk|Hflag];
     [subst k
     |destruct (decide (k = "duplicates_csv")) as [Hk|Hcsv]; [subst k|]]);
    repeat first
      [ done
      | rewrite lookup_insert_eq
      | rewrite lookup_delete_eq
      | rewrite lookup_insert_ne by done
      | rewrite lookup_delete_ne by done ].
Qed.

(** X7. The last upload that parses wins: the session it leaves is the
    same whether or not another upload, of any outcome, came just before
    it. *)
Theorem upload_last_wins request1 request2 df2 dups2 s :
  upload_finds read_csv request2 df2 dups2 →
  (upload_file read_csv to_csv to_html render_template request2
     (upload_file read_csv to_csv to_html render_template request1 s).2).2
  = (upload_file read_csv to_csv to_html render_template request2 s).2.
Proof.
  intros Hf. rewrite !(upload_file_finds _ _ _ _ _ _ _ _ Hf). simpl.
  destruct (upload_file_session read_csv to_csv to_html render_template
              request1 s) as [->|(df1 & dups1 & _ & ->)]; [done|].
  apply after_after.
Qed.

(** X8. Uploading and then downloading gives back the serialization of
    the duplicate subset of that upload: when the file parses, line 38
    finds rows, and their serialization is not the empty text, the
    download that follows sends exactly its bytes, as [duplicates.csv]. *)
Theorem upload_then_download request df dups s :
  finds request df dups → rows dups ≠ [] → to_csv dups ≠ "" →
  download_duplicates (upload request s).2
  = (SendFile (encode_utf8 (to_csv dups)) "text/csv" true "duplicates.csv",
     (upload request s).2).
Proof.
  intros Hf Hrows Hne.
  assert (empty dups = false) as He.
  { destruct Hf as (? & _ & _ & _ & Hd).
    apply not_true_is_false. by rewrite (find_duplicates_empty _ _ Hd). }
  rewrite (upload_file_finds _ _ _ _ _ _ _ _ Hf). simpl.
  rewrite (after_nonempty to_csv) by done.
  apply download_stored; [|by rewrite lookup_insert_ne, lookup_insert_eq|done].
  by rewrite lookup_insert_eq.
Qed.

End UploadCases.

(** ** The download view on any session *)

(** The four ways through the download view. *)
Lemma download_cases (s : Session) :
  (flag_set s = false ∧ download_duplicates s = (no_duplicates, s))
  ∨ (flag_set s = true
       ∧ (s !! "duplicates_csv" = None
          ∨ ∃ v, s !! "duplicates_csv" = Some v ∧ truthy v = false)
       ∧ download_duplicates s = (data_missing, s))
  ∨ (flag_set s = true
       ∧ ∃ csv, s !! "duplicates_csv" = Some (PyStr csv) ∧ csv ≠ ""
           ∧ download_duplicates s
             = (SendFile (encode_utf8 csv) "text/csv" true "duplicates.csv", s))
  ∨ (flag_set s = true ∧ s !! "duplicates_csv" = Some (PyBool true)
       ∧ ∃ e, download_duplicates s = (Unhandled e, s)).
Proof.
  unfold download_duplicates, run_view, download_handler, flag_set.
  unfold mbind, handler_bind, session_get, mret, handler_ret, lift.
  destruct (truthy (default (PyBool false) (s !! "has_duplicates"))); simpl.
  2: { by left. }
  right. destruct (s !! "duplicates_csv") as [[[|]|csv]|] eqn:Hcsv; simpl.
  - do 2 right. split_and!; [done..|]. eauto.
  - left. split_and!; [done| |done]. right. by eexists.
  - destruct (String.eqb csv "") eqn:E; simpl.
    + left. split_and!; [done| |done]. right. eexists. split; [done|].
      simpl. by rewrite E.
    + right. left. split; [done|]. exists csv. split_and!; [done| |done].
      by apply String.eqb_neq.
  - left. split_and!; [done|by left|done].
Qed.

(** X9. For any session, the download view sends a file exactly when the
    flag reads true and a non-empty text is stored under
    [duplicates_csv]; the bytes sent then decode to the stored text, and
    the file goes out as the attachment [duplicates.csv] of type
    [text/csv]. *)
Theorem download_sends_iff (s : Session) :
  ((∃ data m a n, (download_duplicates s).1 = SendFile data m a n) ↔
     flag_set s = true ∧ csv_stored s)
  ∧ (∀ data m a n, (download_duplicates s).1 = SendFile data m a n →
       s !! "duplicates_csv" = Some (PyStr (string_of_list_byte data))
       ∧ m = "text/csv" ∧ a = true ∧ n = "duplicates.csv").
Proof.
  destruct (download_cases s)
    as [[Hflag Hd]|[(Hflag & Hmiss & Hd)|[(Hflag & csv & Hcsv & Hne & Hd)
       |(Hflag & Hcsv & e & Hd)]]]; rewrite Hd; simpl.
  - split; [|by intros ???? [=]]. split.
    + by intros (? & ? & ? & ? & [=]).
    + intros [Ht _]. congruence.
  - split; [|by intros ???? [=]]. split.
    + by intros (? & ? & ? & ? & [=]).
    + intros [_ (csv & Hcsv & Hne)].
      destruct Hmiss as [Hnone|(v & Hv & Hfalsy)]; [congruence|].
      rewrite Hcsv in Hv. injection Hv as <-. simpl in Hfalsy.
      apply negb_false_iff, String.eqb_eq in Hfalsy. done.
  - split.
    + split; [|eauto 6]. intros _. split; [done|]. by exists csv.
    + intros data m a n [= <- <- <- <-]. unfold encode_utf8.
      by rewrite string_of_list_byte_of_string.
  - split; [|by intros ???? [=]]. split.
    + by intros (? & ? & ? & ? & [=]).
    + intros [_ (csv & Hcsv' & _)]. congruence.
Qed.

(** X10. For any session, the flag is read first: the download view
    answers with the 400 of lines 68-69 exactly when the flag is absent
    or falsy, whatever is stored under [duplicates_csv]; it answers with
    the 400 of lines 72-73 exactly when the flag reads true and the
    stored value is absent or falsy. *)
Theorem download_failure_branches (s : Session) :
  ((download_duplicates s).1 = no_duplicates ↔ flag_set s = false)
  ∧ ((download_duplicates s).1 = data_missing ↔
       flag_set s = true
       ∧ (s !! "duplicates_csv" = None
          ∨ ∃ v, s !! "duplicates_csv" = Some v ∧ truthy v = false)).
Proof.
  destruct (download_cases s)
    as [[Hflag Hd]|[(Hflag & Hmiss & Hd)|[(Hflag & csv & Hcsv & Hne & Hd)
       |(Hflag & Hcsv & e & Hd)]]]; rewrite Hd; simpl.
  - split; [done|]. split; [done|]. intros [Ht _]. congruence.
  - split; [|done]. split; [done|congruence].
  - split; [split; [done|congruence]|]. split; [done|].
    intros [_ [Hnone|(v & Hv & Hfalsy)]]; [congruence|].
    rewrite Hcsv in Hv. injection Hv as <-. simpl in Hfalsy.
    apply negb_false_iff, String.eqb_eq in Hfalsy. done.
  - split; [split; [done|congruence]|]. split; [done|].
    intros [_ [Hnone|(v & Hv & Hfalsy)]]; [congruence|].
    rewrite Hcsv in Hv. by injection Hv as <-.
Qed.

(** X11. The download view can be repeated: for any session, a second
    download right after the first gives the same answer and the same
    session. *)
Theorem download_repeatable (s : Session) :
  download_duplicates (download_duplicates s).2 = download_duplicates s.
Proof. by rewrite download_session. Qed.


(** ** Sequences of requests *)

Section History.
Context {V : Type} `{Countable V}.
Variable read_csv : list byte → Result (DataFrame V).
Variable to_csv : DataFrame V → string.
Variable to_html : DataFrame V → string.
Variable render_template : string → ResultsContext → Result string.
Variable render_index : Result string.

Local Abbreviation upload := (upload_file read_csv to_csv to_html render_template).
Local Abbreviation finds := (upload_finds read_csv).
Local Abbreviation after := (session_after to_csv).
Local Abbreviation running := (run read_csv to_csv to_html render_template).
Local Abbreviation reach := (reachable read_csv to_csv to_html render_template).

Implicit Types (s : Session) (request : Request) (df dups : DataFrame V).

Lemma run_from rs : ∀ s,
  running rs s = s
  ∨ ∃ request df dups, Upload request ∈ rs ∧ finds request df dups
      ∧ running rs s = after dups s.
Proof.
  induction rs as [|r rs IH]; intros s; simpl; [by left|].
  destruct r as [request|]; simpl.
  - destruct (upload_file_session read_csv to_csv to_html render_template
                request s) as [->|(df & dups & Hf & ->)].
    + destruct (IH s) as [->|(request' & df' & dups' & Hin & Hf' & ->)];
        [by left|].
      right. exists request', df', dups'. split_and!; [by right|done..].
    + right.
      destruct (IH (after dups s))
        as [->|(request' & df' & dups' & Hin & Hf' & ->)].
      * exists request, df, dups. split_and!; [by left|done..].
      * exists request', df', dups'. split_and!; [by right|done|].
        apply after_after.
  - rewrite download_session.
    destruct (IH s) as [->|(request' & df' & dups' & Hin & Hf' & ->)];
      [by left|].
    right. exists request', df', dups'. split_and!; [by right|done..].
Qed.

(** X12. After any sequence of upload and download requests, the session
    is the one the sequence started from, or it is exactly the session
    that one upload of the sequence, whose file parses, leaves when it is
    sent alone: nothing else of the history stays. *)
Theorem session_is_one_upload rs s :
  run read_csv to_csv to_html render_template rs s = s
  ∨ ∃ request df dups, Upload request ∈ rs
      ∧ upload_finds read_csv request df dups
      ∧ run read_csv to_csv to_html render_template rs s
        = (upload_file read_csv to_csv to_html render_template request s).2.
Proof.
  destruct (run_from rs s) as [->|(request & df & dups & Hin & Hf & ->)];
    [by left|].
  right. exists request, df, dups. split_and!; [done..|].
  by rewrite (upload_file_finds _ _ _ _ _ _ _ _ Hf).
Qed.

Lemma after_empty_session dups k v :
  after dups ∅ !! k = Some v →
  (k = "has_duplicates" ∧ ∃ b, v = PyBool b)
  ∨ (k = "duplicates_csv" ∧ ∃ csv, v = PyStr csv).
Proof.
  unfold session_after. destruct (negb (empty dups)).
  - rewrite lookup_insert. case_decide as Hflag.
    { intros [= <-]. left. eauto. }
    rewrite lookup_insert. case_decide as Hcsv.
    { intros [= <-]. right. eauto. }
    by rewrite lookup_empty.
  - rewrite lookup_delete. case_decide as Hcsv; [done|].
    rewrite lookup_insert. case_decide as Hflag.
    { intros [= <-]. left. eauto. }
    by rewrite lookup_empty.
Qed.

(** X13. In a session reached from a new one by any uploads and
    downloads, no key other than [has_duplicates] and [duplicates_csv] is
    set, the flag is a boolean and the stored value is a text; so line 77
    never raises there and no exception escapes the download view. *)
Theorem reachable_session_typed s :
  reach s →
  (∀ k v, s !! k = Some v →
     (k = "has_duplicates" ∧ ∃ b, v = PyBool b)
     ∨ (k = "duplicates_csv" ∧ ∃ csv, v = PyStr csv))
  ∧ ∀ e, (download_duplicates s).1 ≠ Unhandled e.
Proof.
  intros [rs ->].
  assert (∀ k v, running rs ∅ !! k = Some v →
     (k = "has_duplicates" ∧ ∃ b, v = PyBool b)
     ∨ (k = "duplicates_csv" ∧ ∃ csv, v = PyStr csv)) as Htyped.
  { destruct (run_from rs ∅) as [->|(request & df & dups & _ & _ & ->)].
    - intros k v. by rewrite lookup_empty.
    - apply after_empty_session. }
  split; [done|]. intros e.
  destruct (download_cases (running rs ∅))
    as [[_ Hd]|[(_ & _ & Hd)|[(_ & csv & _ & _ & Hd)|(_ & Hcsv & _)]]];
    try (by rewrite Hd).
  apply Htyped in Hcsv as [[Hk _]|[_ (csv & Hv)]]; done.
Qed.

Lemma index_view_session s : (index_view render_index s).2 = s.
Proof.
  unfold index_view, run_view, index_handler, mbind, handler_bind, lift.
  by destruct render_index.
Qed.

(** X14. The index view has no [except] clause and no use of the session:
    it answers with the rendered page, or lets the exception of the
    rendering escape; and in any sequence of routed requests, the index
    requests can be dropped without changing the session that results. *)
Theorem index_requests_change_nothing rts s :
  index_view render_index s
  = (match render_index with
     | inr page => Page page
     | inl e => Unhandled e
     end, s)
  ∧ run_routes read_csv to_csv to_html render_template render_index rts s
    = running (omap route_req rts) s.
Proof.
  split.
  - unfold index_view, run_view, index_handler, mbind, handler_bind, lift.
    by destruct render_index.
  - revert s. induction rts as [|rt rts IH]; intros s; [done|].
    destruct rt as [|request|]; simpl.
    + by rewrite IH, index_view_session.
    + apply IH.
    + apply IH.
Qed.

End History.

(** ** More on the duplicate subset *)

Section Subset.
Context {V : Type} `{Countable V}.
Implicit Types (vals : list (list V)) (v : list V) (T D : DataFrame V).

Lemma values_find_duplicates T D :
  has_columns T → find_duplicates T = inr D →
  values D = filter (λ v, 2 ≤ occurrences (values T) v) (values T).
Proof.
  intros Hcols Hd. rewrite find_duplicates_filter in Hd by done.
  injection Hd as <-.
  exact (values_filter (λ v, 2 ≤ occurrences (values T) v) (rows T)).
Qed.

Lemma values_length T : length (values T) = len T.
Proof. unfold values, len. by rewrite length_fmap. Qed.

(** X15. The duplicate subset never has exactly one row: it is empty or
    has at least two. *)
Theorem duplicates_count_not_one T D :
  has_columns T → find_duplicates T = inr D → len D ≠ 1.
Proof.
  intros Hcols Hd Hlen. rewrite <- values_length in Hlen.
  destruct (duplicates_closed T D 0 Hcols Hd) as (j & v & Hj & _ & Hjv);
    [lia|].
  apply lookup_lt_Some in Hjv. lia.
Qed.

(** X16. The duplicate subset is empty exactly when no two rows of the
    table are equal. *)
Theorem no_duplicates_iff_NoDup T D :
  has_columns T → find_duplicates T = inr D →
  rows D = [] ↔ NoDup (values T).
Proof.
  intros Hcols Hd.
  pose proof (values_find_duplicates T D Hcols Hd) as Hvals.
  assert (rows D = [] ↔ values D = []) as ->.
  { unfold values. split; [by intros ->|apply fmap_nil_inv]. }
  rewrite Hvals, NoDup_alt. split.
  - intros Hnil i j v Hi Hj.
    destruct (decide (i = j)) as [|Hne]; [done|]. exfalso.
    assert (has_twin (values T) i) as Htwin by (by exists j, v).
    apply (has_twin_occurrences _ _ v Hi) in Htwin.
    assert (v ∈ filter (λ v, 2 ≤ occurrences (values T) v) (values T)) as Hin.
    { apply list_elem_of_filter. split; [done|].
      by eapply list_elem_of_lookup_2. }
    rewrite Hnil in Hin. by apply elem_of_nil in Hin.
  - intros Hnodup.
    destruct (filter _ (values T)) as [|v l] eqn:E; [done|]. exfalso.
    assert (v ∈ filter (λ v, 2 ≤ occurrences (values T) v) (values T)) as Hin
      by (rewrite E; left).
    apply list_elem_of_filter in Hin as [Hocc Hv].
    apply list_elem_of_lookup in Hv as [i Hi].
    destruct (proj2 (has_twin_occurrences _ _ v Hi) Hocc)
      as (j & w & Hne & Hiw & Hjw).
    apply Hne. apply (Hnodup j i w); congruence.
Qed.

(** X17. Taking the duplicate subset twice is taking it once: line 38 run
    on the duplicate subset returns that subset. *)
Theorem find_duplicates_idempotent T D :
  has_columns T → find_duplicates T = inr D → find_duplicates D = inr D.
Proof.
  intros Hcols Hd. apply find_duplicates_all_twins.
  - rewrite find_duplicates_total in Hd by done. injection Hd as <-.
    simpl. intros Hnil. unfold has_columns in Hcols.
    rewrite (Hcols Hnil). unfold duplicated.
    by rewrite (empty_no_rows T) by auto.
  - intros p Hp. by eapply duplicates_closed.
Qed.

(** X18. A table is its own duplicate subset exactly when each of its
    rows has an equal row at another position. *)
Theorem find_duplicates_fixpoint_iff T :
  has_columns T →
  find_duplicates T = inr T ↔ ∀ p, p < len T → has_twin (values T) p.
Proof.
  intros Hcols. split.
  - intros Hd p Hp. eapply duplicates_closed; [done..|].
    by rewrite values_length.
  - intros Hall. apply find_duplicates_all_twins; [done|].
    intros p Hp. apply Hall. by rewrite <- values_length.
Qed.

(** X19. No copy of a repeated row stays behind: a row of the table whose
    cells are those of some row of the duplicate subset is itself in the
    duplicate subset, under its own label. *)
Theorem duplicates_take_every_copy T D x :
  has_columns T → find_duplicates T = inr D →
  x ∈ rows T → x.2 ∈ values D → x ∈ rows D.
Proof.
  intros Hcols Hd Hx Hin.
  rewrite (values_find_duplicates T D Hcols Hd) in Hin.
  apply list_elem_of_filter in Hin as [Hocc _].
  rewrite find_duplicates_filter in Hd by done. injection Hd as <-. simpl.
  by apply list_elem_of_filter.
Qed.

Lemma occurrences_Permutation vals1 vals2 v :
  vals1 ≡ₚ vals2 → occurrences vals1 v = occurrences vals2 v.
Proof. unfold occurrences. by intros ->. Qed.

(** X20. Only the cells count, and their order only orders the result:
    two tables whose rows are the same up to order, under any labels and
    column names, have duplicate subsets whose rows are the same up to
    order; and when the rows are the same in the same order, so are the
    rows of the duplicate subsets. *)
Theorem duplicates_of_permuted_rows T1 D1 T2 D2 :
  has_columns T1 → has_columns T2 →
  find_duplicates T1 = inr D1 → find_duplicates T2 = inr D2 →
  (values T1 ≡ₚ values T2 → values D1 ≡ₚ values D2)
  ∧ (values T1 = values T2 → values D1 = values D2).
Proof.
  intros Hcols1 Hcols2 Hd1 Hd2.
  rewrite (values_find_duplicates T1 D1), (values_find_duplicates T2 D2)
    by done.
  split.
  - intros Hperm.
    rewrite (list_filter_iff _ (λ v, 2 ≤ occurrences (values T2) v)).
    + by rewrite Hperm.
    + intros v. by rewrite (occurrences_Permutation _ _ v Hperm).
  - by intros ->.
Qed.

End Subset.

(** ** Instances of the statements above *)

(** Instance: the upload of two equal rows into a session that holds
    another key. *)
Lemma upload_writes_two_keys_witness :
  (upload_file Csv.read_csv Csv.to_csv Csv.to_html Csv.render_template
     pair_upload noted_session).2 !! "user"
  = Some (PyStr "ann").
Proof.
  assert ("user" ≠ "has_duplicates") as Hflag by (intros Hk; discriminate Hk).
  assert ("user" ≠ "duplicates_csv") as Hcsv by (intros Hk; discriminate Hk).
  exact (upload_writes_two_keys Csv.read_csv Csv.to_csv Csv.to_html
           Csv.render_template pair_upload noted_session "user" Hflag Hcsv).
Defined.

(** Instance: the upload of two equal rows when no template is found. *)
Lemma upload_render_failure_keeps_write_witness :
  let upload := upload_file Csv.read_csv Csv.to_csv Csv.to_html no_templates in
  (upload pair_upload ∅).1 = Body "Error processing file: results.html" 500
  ∧ (upload pair_upload ∅).2 !! "has_duplicates" = Some (PyBool true)
  ∧ export_buffer (upload pair_upload ∅).2
    = Some (PyStr (Csv.to_csv pair_table)).
Proof.
  exact (upload_render_failure_keeps_write Csv.read_csv Csv.to_csv
           Csv.to_html no_templates pair_upload pair_table pair_table
           (Raise "TemplateNotFound" "results.html") ∅
           pair_upload_finds eq_refl).
Defined.

(** Instance: the upload of two distinct rows, after the upload of two
    equal rows or alone. *)
Lemma upload_last_wins_witness :
  let upload := upload_file Csv.read_csv Csv.to_csv Csv.to_html
                  Csv.render_template in
  (upload distinct_upload (upload pair_upload ∅).2).2
  = (upload distinct_upload ∅).2.
Proof.
  exact (upload_last_wins Csv.read_csv Csv.to_csv Csv.to_html
           Csv.render_template pair_upload distinct_upload distinct_table
           (mkFrame ["X"] []) ∅ distinct_upload_finds).
Defined.

(** Instance: the upload of two equal rows, then a download. *)
Lemma upload_then_download_witness :
  let upload := upload_file Csv.read_csv Csv.to_csv Csv.to_html
                  Csv.render_template in
  download_duplicates (upload pair_upload ∅).2
  = (SendFile (encode_utf8 (Csv.to_csv pair_table)) "text/csv" true
       "duplicates.csv", (upload pair_upload ∅).2).
Proof.
  assert (rows pair_table ≠ []) as Hrows by (intros Hr; discriminate Hr).
  exact (upload_then_download Csv.read_csv Csv.to_csv Csv.to_html
           Csv.render_template pair_upload pair_table pair_table ∅
           pair_upload_finds Hrows (to_csv_nonempty pair_table)).
Defined.

(** Instance: the session after the upload of two equal rows and a
    download. *)
Lemma reachable_session_typed_witness :
  let s := run Csv.read_csv Csv.to_csv Csv.to_html Csv.render_template
             [Upload pair_upload; Download] ∅ in
  (∀ k v, s !! k = Some v →
     (k = "has_duplicates" ∧ ∃ b, v = PyBool b)
     ∨ (k = "duplicates_csv" ∧ ∃ csv, v = PyStr csv))
  ∧ ∀ e, (download_duplicates s).1 ≠ Unhandled e.
Proof.
  intros s.
  assert (reachable Csv.read_csv Csv.to_csv Csv.to_html Csv.render_template s)
    as Hreach by (exists [Upload pair_upload; Download]; reflexivity).
  exact (reachable_session_typed Csv.read_csv Csv.to_csv Csv.to_html
           Csv.render_template s Hreach).
Defined.

Lemma example_table_has_columns : has_columns example_table.
Proof. intros Hc. discriminate Hc. Qed.

(** Instance: the sample table, whose duplicate subset has two rows. *)
Lemma duplicates_count_not_one_witness : len example_duplicates ≠ 1.
Proof.
  exact (duplicates_count_not_one example_table example_duplicates
           example_table_has_columns eq_refl).
Defined.

(** Instance: the sample table, which has equal rows. *)
Lemma no_duplicates_iff_NoDup_witness :
  rows example_duplicates = [] ↔ NoDup (values example_table).
Proof.
  exact (no_duplicates_iff_NoDup example_table example_duplicates
           example_table_has_columns eq_refl).
Defined.

(** Instance: the duplicate subset of the sample table. *)
Lemma find_duplicates_idempotent_witness :
  find_duplicates example_duplicates = inr example_duplicates.
Proof.
  exact (find_duplicates_idempotent example_table example_duplicates
           example_table_has_columns eq_refl).
Defined.

(** Instance: the table of two equal rows. *)
Lemma find_duplicates_fixpoint_iff_witness :
  find_duplicates pair_table = inr pair_table ↔
  ∀ p, p < len pair_table → has_twin (values pair_table) p.
Proof.
  assert (has_columns pair_table) as Hcols by (intros Hc; discriminate Hc).
  exact (find_duplicates_fixpoint_iff pair_table Hcols).
Defined.

(** Instance: the third row of the sample table, a copy of the first. *)
Lemma duplicates_take_every_copy_witness :
  (2, [CStr "a"; CInt 1]) ∈ rows example_duplicates.
Proof.
  assert ((2, [CStr "a"; CInt 1]) ∈ rows example_table) as Hx
    by (do 2 right; left).
  assert ([CStr "a"; CInt 1] ∈ values example_duplicates) as Hin by left.
  exact (duplicates_take_every_copy example_table example_duplicates
           (2, [CStr "a"; CInt 1]) example_table_has_columns eq_refl Hx Hin).
Defined.

(** Instance: the sample table against itself with two rows exchanged,
    and against itself under other labels. *)
Lemma duplicates_of_permuted_rows_witness :
  (values example_duplicates
   ≡ₚ values (mkFrame ["X"; "Y"]
                [(1, [CStr "a"; CInt 1]); (2, [CStr "a"; CInt 1])]))
  ∧ values example_duplicates
    = values (mkFrame ["P"; "Q"]
                [(7, [CStr "a"; CInt 1]); (3, [CStr "a"; CInt 1])]).
Proof.
  assert (has_columns example_swapped) as Hswapped
    by (intros Hc; discriminate Hc).
  assert (has_columns example_relabelled) as Hrelabelled
    by (intros Hc; discriminate Hc).
  assert (find_duplicates example_table = inr example_duplicates) as Hd
    by reflexivity.
  assert (find_duplicates example_swapped
          = inr (mkFrame ["X"; "Y"]
                   [(1, [CStr "a"; CInt 1]); (2, [CStr "a"; CInt 1])]))
    as Hds by reflexivity.
  assert (find_duplicates example_relabelled
          = inr (mkFrame ["P"; "Q"]
                   [(7, [CStr "a"; CInt 1]); (3, [CStr "a"; CInt 1])]))
    as Hdr by reflexivity.
  split.
  - apply (duplicates_of_permuted_rows _ _ _ _ example_table_has_columns
             Hswapped Hd Hds).
    apply perm_swap.
  - apply (duplicates_of_permuted_rows _ _ _ _ example_table_has_columns
             Hrelabelled Hd Hdr).
    reflexivity.
Defined.
